(** * Decision-aware search: the ranking engine

    A shallow embedding of the ranking logic of the repository
    (the stand-alone module [ranking-engine.js] and its twin inside the
    browser script [app.js]) together with the properties the
    specification states about it.

    Conventions of the embedding.

    - JavaScript numbers are exact rationals ([Q]) extended with [NaN]
      ([JS.num]); rounding of IEEE doubles is not modelled.  No division of
      the program can have a zero denominator (see the remarks at each
      division), so infinities never arise.
    - A property that an object may lack is an [option]; reading a missing
      property gives [undefined], which is falsy, compares [false] with
      every number and turns into [NaN] in arithmetic.
    - Strings are ASCII strings; [toLowerCase], [split(/\s+/)] and
      [includes] are written out on them.
    - An exception is an explicit outcome ([completion]). *)

From Stdlib Require Import QArith Qminmax Qround Qabs Lqa ZArith Lia.
From Stdlib Require Import List String Ascii Bool.
From Stdlib Require Import Sorting.Sorted Sorting.Permutation.
Import ListNotations.

Open Scope string_scope.
Open Scope list_scope.
Open Scope Q_scope.

(* ================================================================== *)
(** ** JavaScript numbers *)

Module JS.

Inductive num : Type :=
| Num (q : Q)
| NaN.

(** [a + b], [a - b], [a * b]: [NaN] is absorbing. *)
Definition add (a b : num) : num :=
  match a, b with
  | Num x, Num y => Num (x + y)
  | _, _ => NaN
  end.

Definition sub (a b : num) : num :=
  match a, b with
  | Num x, Num y => Num (x - y)
  | _, _ => NaN
  end.

Definition mul (a b : num) : num :=
  match a, b with
  | Num x, Num y => Num (x * y)
  | _, _ => NaN
  end.

(** [Math.max(a, b)] and [Math.min(a, b)]: [NaN] as soon as one argument
    is [NaN]. *)
Definition max (a b : num) : num :=
  match a, b with
  | Num x, Num y => Num (Qmax x y)
  | _, _ => NaN
  end.

Definition min (a b : num) : num :=
  match a, b with
  | Num x, Num y => Num (Qmin x y)
  | _, _ => NaN
  end.

(** [a > b]: every comparison with [NaN] is [false]. *)
Definition gt (a b : num) : bool :=
  match a, b with
  | Num x, Num y => negb (Qle_bool x y)
  | _, _ => false
  end.

(** Reading a numeric property inside an arithmetic expression:
    [undefined] converts to [NaN]. *)
Definition ofProp (o : option Q) : num :=
  match o with
  | Some q => Num q
  | None => NaN
  end.

(** [o || d] for a numeric property [o] and a non-zero default [d] or the
    default [0]: a missing property and the number [0] are both falsy. *)
Definition orElse (o : option Q) (d : Q) : Q :=
  match o with
  | Some q => if Qeq_bool q 0 then d else q
  | None => d
  end.

(** [o > c] for a numeric property [o]: [undefined > c] is [false]. *)
Definition propGt (o : option Q) (c : Q) : bool :=
  match o with
  | Some q => negb (Qle_bool q c)
  | None => false
  end.

(** Equality of numbers as values of the model: rationals up to [==],
    and [NaN] only with [NaN]. *)
Definition eq (a b : num) : Prop :=
  match a, b with
  | Num x, Num y => x == y
  | NaN, NaN => True
  | _, _ => False
  end.

(** [lo <= a <= hi] for a number that is not [NaN]. *)
Definition within (lo hi : Q) (a : num) : Prop :=
  match a with
  | Num x => lo <= x /\ x <= hi
  | NaN => False
  end.

Definition isNum (a : num) : Prop :=
  match a with
  | Num _ => True
  | NaN => False
  end.

(** [Math.round(x)]: the nearest integer, halves rounded up. *)
Definition round (x : Q) : Z := Qfloor (x + (1 # 2)).

(** [a >= b]: [false] as soon as one side is [NaN]. *)
Definition ge (a b : num) : bool :=
  match a, b with
  | Num x, Num y => Qle_bool y x
  | _, _ => false
  end.

(** [o >= c] for a numeric property [o]: [undefined >= c] is [false]. *)
Definition propGe (o : option Q) (c : Q) : bool :=
  match o with
  | Some q => Qle_bool c q
  | None => false
  end.

(** [Math.round(o * 100)] for a numeric property [o]. *)
Definition percentOf (o : option Q) : num :=
  match o with
  | Some q => Num (inject_Z (round (q * 100)))
  | None => NaN
  end.

End JS.

Declare Scope js_scope.
Delimit Scope js_scope with js.
Bind Scope js_scope with JS.num.
Infix "+" := JS.add : js_scope.
Infix "-" := JS.sub : js_scope.
Infix "*" := JS.mul : js_scope.
Infix "=js=" := JS.eq (at level 70, no associativity).

(* ================================================================== *)
(** ** Exceptions *)

Inductive JSError : Type :=
| TypeError (msg : string).

Inductive completion (A : Type) : Type :=
| Normal (a : A)
| Throw (e : JSError).
Arguments Normal {A} a.
Arguments Throw {A} e.

Definition bind {A B : Type} (c : completion A) (k : A -> completion B)
  : completion B :=
  match c with
  | Normal a => k a
  | Throw e => Throw e
  end.

Notation "x <- c ;; k" := (bind c (fun x => k))
  (at level 61, c at next level, right associativity).

(** [xs.map(f)] for a callback that may throw: the first exception, in
    index order, ends the whole call. *)
Fixpoint mapM {A B : Type} (f : A -> completion B) (xs : list A)
  : completion (list B) :=
  match xs with
  | [] => Normal []
  | x :: xs' =>
      y <- f x ;;
      ys <- mapM f xs' ;;
      Normal (y :: ys)
  end.

(* ================================================================== *)
(** ** Strings *)

Module Str.

Definition isUpper (c : ascii) : bool :=
  let n := nat_of_ascii c in (65 <=? n)%nat && (n <=? 90)%nat.

Definition isLower (c : ascii) : bool :=
  let n := nat_of_ascii c in (97 <=? n)%nat && (n <=? 122)%nat.

Definition lowerChar (c : ascii) : ascii :=
  if isUpper c then ascii_of_nat (nat_of_ascii c + 32) else c.

Definition upperChar (c : ascii) : ascii :=
  if isLower c then ascii_of_nat (nat_of_ascii c - 32) else c.

(** [s.toLowerCase()] *)
Fixpoint toLowerCase (s : string) : string :=
  match s with
  | EmptyString => EmptyString
  | String c s' => String (lowerChar c) (toLowerCase s')
  end.

(** [s.charAt(0).toUpperCase() + s.slice(1)] *)
Definition capitalize (s : string) : string :=
  match s with
  | EmptyString => EmptyString
  | String c s' => String (upperChar c) s'
  end.

(** The characters matched by [\s] (ASCII part): tab, line feed, vertical
    tab, form feed, carriage return and space. *)
Definition isSpace (c : ascii) : bool :=
  let n := nat_of_ascii c in
  ((9 <=? n)%nat && (n <=? 13)%nat) || (n =? 32)%nat.

(** [s.split(/\s+/)]: the pieces between maximal runs of white space.
    The list is never empty; a string that starts (ends) with white space
    yields a leading (trailing) empty piece.  [inGap] says that the
    previous character belonged to a separator. *)
Fixpoint splitFrom (inGap : bool) (s : string) : list string :=
  match s with
  | EmptyString => [EmptyString]
  | String c s' =>
      if isSpace c then
        if inGap then splitFrom true s'
        else EmptyString :: splitFrom true s'
      else
        match splitFrom false s' with
        | piece :: pieces => String c piece :: pieces
        | [] => [String c EmptyString]
        end
  end.

Definition splitWhitespace (s : string) : list string := splitFrom false s.

(** [s.includes(sub)] *)
Fixpoint includes (s sub : string) : bool :=
  String.prefix sub s ||
  match s with
  | EmptyString => false
  | String _ s' => includes s' sub
  end.

(** [pieces.join(', ')] *)
Definition joinComma (pieces : list string) : string :=
  String.concat ", " pieces.

(** [s.trim()]: white space removed at both ends. *)
Fixpoint trimStart (s : string) : string :=
  match s with
  | EmptyString => EmptyString
  | String c s' => if isSpace c then trimStart s' else s
  end.

Fixpoint trimEnd (s : string) : string :=
  match s with
  | EmptyString => EmptyString
  | String c s' =>
      match trimEnd s' with
      | EmptyString => if isSpace c then EmptyString else String c EmptyString
      | rest => String c rest
      end
  end.

Definition trim (s : string) : string := trimEnd (trimStart s).

(** [o || d] for a string property [o]: a missing property and the empty
    string are both falsy. *)
Definition orElse (o : option string) (d : string) : string :=
  match o with
  | Some s => if String.eqb s "" then d else s
  | None => d
  end.

(** A string property read as a condition: [Some] of a non-empty string
    when it is truthy. *)
Definition truthy (o : option string) : option string :=
  match o with
  | Some s => if String.eqb s "" then None else Some s
  | None => None
  end.

End Str.

(* ================================================================== *)
(** ** Data model *)

(** One entry of the candidate list ([data/results.json], or a converted
    answer of the search provider).  Every property the engine guards with
    [||] or [&&] may be missing. *)
Record SearchResult : Type := mkResult {
  id : Z;
  title : string;
  url : string;
  summary : string;
  category : option string;
  tags : option (list string);
  relevance : option Q;
  simplicity : option Q;
  price : option Q;
  reviews : option Q;
  citations : option Q;
  depth : option Q;
  recency : option Q;
  readingTime : option Q
}.

(** The constraints object built by the request handlers:
    [budget] a flag, [readingTime] a parsed integer or [null],
    [skillLevel] a string or [null]. *)
Record Constraints : Type := mkConstraints {
  budget : bool;
  budgetAmount : option Q;
  currency : option string;
  maxReadingTime : option Z;
  skillLevel : option string
}.

(** The default [constraints = {}]. *)
Definition noConstraints : Constraints :=
  mkConstraints false None None None None.

(** Truthiness of [constraints.readingTime]: a number other than [0].
    The value is then passed through [parseInt], the identity on an
    integer. *)
Definition activeReadingTime (c : Constraints) : option Z :=
  match maxReadingTime c with
  | Some m => if (m =? 0)%Z then None else Some m
  | None => None
  end.

(** Truthiness of [constraints.skillLevel]: a non-empty string. *)
Definition activeSkillLevel (c : Constraints) : option string :=
  match skillLevel c with
  | Some s => if String.eqb s "" then None else Some s
  | None => None
  end.

(** Truthiness of [result.category]. *)
Definition activeCategory (r : SearchResult) : option string :=
  match category r with
  | Some s => if String.eqb s "" then None else Some s
  | None => None
  end.

(** A weight object, as the list of its entries in source order (the order
    [Object.entries] enumerates them in). *)
Definition Weights : Type := list (string * Q).

Definition student : Weights :=
  [ ("simplicity", 0.30); ("relevance", 0.25); ("recency", 0.15);
    ("reviews", 0.15); ("depth", 0.10); ("price", 0.05);
    ("citations", 0.00); ("readingTime", -0.05) ]%string.

Definition shopper : Weights :=
  [ ("price", 0.35); ("reviews", 0.30); ("relevance", 0.20);
    ("simplicity", 0.10); ("recency", 0.05); ("depth", 0.00);
    ("citations", 0.00); ("readingTime", 0.00) ]%string.

Definition researcher : Weights :=
  [ ("citations", 0.35); ("depth", 0.30); ("relevance", 0.20);
    ("reviews", 0.10); ("recency", 0.05); ("simplicity", 0.00);
    ("price", 0.00); ("readingTime", 0.00) ]%string.

Definition casual : Weights :=
  [ ("relevance", 0.35); ("recency", 0.25); ("readingTime", -0.15);
    ("simplicity", 0.20); ("reviews", 0.10); ("price", 0.05);
    ("depth", 0.00); ("citations", 0.00) ]%string.

(** Property lookup [obj[key]] in an object given by its entries. *)
Fixpoint lookup {V : Type} (key : string) (obj : list (string * V))
  : option V :=
  match obj with
  | [] => None
  | (k, v) :: rest => if String.eqb k key then Some v else lookup key rest
  end.

(** The own properties of the object [profileWeights]. *)
Definition profileWeights (profile : string) : option Weights :=
  lookup profile
    [ ("student", student); ("shopper", shopper);
      ("researcher", researcher); ("casual", casual) ]%string.

(** The names every object inherits from [Object.prototype]: indexing
    [profileWeights] with one of them yields a function (or the prototype
    itself), a truthy value without own enumerable entries. *)
Definition inheritedNames : list string :=
  [ "constructor"; "__defineGetter__"; "__defineSetter__";
    "hasOwnProperty"; "__lookupGetter__"; "__lookupSetter__";
    "isPrototypeOf"; "propertyIsEnumerable"; "toString"; "valueOf";
    "__proto__"; "toLocaleString" ]%string.

(** [const weights = profileWeights[profile]], as the entries of the value
    read; [None] when it is [undefined]. *)
Definition weightsOf (profile : string) : option Weights :=
  match profileWeights profile with
  | Some w => Some w
  | None =>
      if existsb (String.eqb profile) inheritedNames then Some []
      else None
  end.

(* ================================================================== *)
(** ** Leaves of the pipeline *)

(** [getReadingTimeScore(readingTime)].  The divisor [maxTime - minTime]
    is the constant 55. *)
Definition getReadingTimeScore (readingTime : Q) : Q :=
  let maxTime := 60 in
  let minTime := 5 in
  if Qle_bool readingTime minTime then 1.0
  else if Qle_bool maxTime readingTime then 0.0
  else 1.0 - ((readingTime - minTime) / (maxTime - minTime)).

(** [extractKeywords(query)] *)
Definition extractKeywords (query : string) : list string :=
  firstn 5
    (filter (fun word => (3 <? String.length word)%nat)
       (Str.splitWhitespace (Str.toLowerCase query))).

(** The two-way containment test
    [tag.includes(keyword) || keyword.includes(tag)]. *)
Definition matchesKeyword (tag keyword : string) : bool :=
  Str.includes tag keyword || Str.includes keyword tag.

(** [filterByQueryIntent(results, query)] (the console output of the
    browser twin left out). *)
Definition admits (keywords : list string) (result : SearchResult) : bool :=
  let resultTags :=
    map Str.toLowerCase
      (match category result with
       | Some c => c
       | None => EmptyString
       end
       :: match tags result with
          | Some ts => ts
          | None => []
          end) in
  existsb
    (fun keyword => existsb (fun tag => matchesKeyword tag keyword) resultTags)
    keywords.

Definition filterByQueryIntent (results : list SearchResult) (query : string)
  : list SearchResult :=
  let keywords := extractKeywords query in
  if (List.length keywords =? 0)%nat then results
  else filter (admits keywords) results.

(* ================================================================== *)
(** ** Relevance *)

(** [queryKeywords.some(k => s.toLowerCase().includes(k) ||
    k.includes(s.toLowerCase()))] *)
Definition matchesAnyKeyword (queryKeywords : list string) (s : string)
  : bool :=
  existsb (fun keyword => matchesKeyword (Str.toLowerCase s) keyword)
    queryKeywords.

Definition countQ {A : Type} (l : list A) : Q :=
  inject_Z (Z.of_nat (List.length l)).

(** [computeRelevanceScore(result, queryKeywords)].  [factors] is at least
    0.6 when the quotient is taken, and [Math.max(1, n)] at least 1. *)
Definition computeRelevanceScore (result : SearchResult)
  (queryKeywords : list string) : Q :=
  let score := JS.orElse (relevance result) 0 * 0.6 in
  let factors := 0.6 in
  let '(score, factors) :=
    match activeCategory result with
    | Some c =>
        if (0 <? List.length queryKeywords)%nat then
          let categoryMatch := matchesAnyKeyword queryKeywords c in
          ((if categoryMatch then score + 0.25 else score), factors + 0.25)
        else (score, factors)
    | None => (score, factors)
    end in
  let '(score, factors) :=
    match tags result with
    | Some ts =>
        if (0 <? List.length queryKeywords)%nat then
          let matchingTags := filter (matchesAnyKeyword queryKeywords) ts in
          let tagMatchRatio := countQ matchingTags / Qmax 1 (countQ ts) in
          (score + tagMatchRatio * 0.15, factors + 0.15)
        else (score, factors)
    | None => (score, factors)
    end in
  let normalizedScore :=
    if negb (Qle_bool factors 0) then score / factors
    else JS.orElse (relevance result) 0 in
  Qmax 0 (Qmin 1 normalizedScore).

(* ================================================================== *)
(** ** Explanations *)

(** One line of the justification.  Each constructor stands for one
    template string of [generateExplanations] and carries the values the
    template interpolates. *)
Inductive Explanation : Type :=
| MatchesResultType (category : string)
    (* Matches "<category>" result type you're looking for *)
| MatchesInterests (tagList : string) (ellipsis : bool)
    (* Matches your interests: <tagList>[ ...] *)
| HighlyRelevant (percent : Z)
    (* Highly relevant to your search (<percent>% match) *)
| FitsReadingTime (maxTime : Z) (minutes : Q)
    (* Fits your <maxTime>-minute reading time limit (<minutes> min) *)
| RespectsBudget
    (* Respects your budget constraint *)
| BeginnerLevel
    (* Appropriate for beginner level *)
| IntermediateDepth
    (* Good depth for intermediate learners *)
| AdvancedDepth
    (* Sufficient depth for advanced learners *)
| ProfilePreference (profileName : string) (factorTexts : string)
    (* <ProfileName> preference: <factorTexts> *)
| RelevantMatch (percent : Z)
    (* Relevant match (<percent>%) *)
| BestAvailable.
    (* Best available match for your search *)

Definition when {A : Type} (b : bool) (l : list A) : list A :=
  if b then l else [].

(** [generateExplanations(result, profile, constraints, queryKeywords,
    relevanceScore, personalizationScore)].  Reading [weights.simplicity]
    from an [undefined] [weights] throws. *)
Definition generateExplanations (result : SearchResult) (profile : string)
  (constraints : Constraints) (queryKeywords : list string)
  (relevanceScore : Q) (personalizationScore : JS.num)
  : completion (list Explanation) :=
  let scoreContributionThreshold := 0.6 in
  let hasKeywords := (0 <? List.length queryKeywords)%nat in
  let categoryLines :=
    match activeCategory result with
    | Some c =>
        when (hasKeywords && matchesAnyKeyword queryKeywords c)
          [MatchesResultType c]
    | None => []
    end in
  let tagLines :=
    match tags result with
    | Some ts =>
        if hasKeywords then
          let matchingTags := filter (matchesAnyKeyword queryKeywords) ts in
          when (0 <? List.length matchingTags)%nat
            [MatchesInterests (Str.joinComma (firstn 3 matchingTags))
               (3 <? List.length matchingTags)%nat]
        else []
    | None => []
    end in
  let relevanceLines :=
    when (Qle_bool scoreContributionThreshold relevanceScore)
      [HighlyRelevant (JS.round (relevanceScore * 100))] in
  match weightsOf profile with
  | None =>
      Throw (TypeError
        "Cannot read properties of undefined (reading 'simplicity')")
  | Some weights =>
      let heavy (metric : string) (bound : Q) (value : option Q) :=
        JS.propGt (lookup metric weights) bound
        && JS.propGt value scoreContributionThreshold in
      let contributingFactors :=
        (when (heavy "simplicity" 0.2 (simplicity result))
           ["Easy to understand"]
         ++ when (heavy "price" 0.2 (price result)) ["Affordable"]
         ++ when (heavy "reviews" 0.2 (reviews result)) ["Highly reviewed"]
         ++ when (heavy "citations" 0.2 (citations result)) ["Highly cited"]
         ++ when (heavy "depth" 0.2 (depth result))
              ["Comprehensive and detailed"]
         ++ when (heavy "recency" 0.15 (recency result))
              ["Recently updated"]) in
      let readingTimeLines :=
        match activeReadingTime constraints with
        | Some maxTime =>
            match readingTime result with
            | Some minutes =>
                when (negb (Qeq_bool minutes 0)
                      && Qle_bool minutes (inject_Z maxTime))
                  [FitsReadingTime maxTime minutes]
            | None => []
            end
        | None => []
        end in
      let budgetLines :=
        when (budget constraints
              && JS.propGt (price result) scoreContributionThreshold)
          [RespectsBudget] in
      let skillLines :=
        match activeSkillLevel constraints with
        | Some level =>
            if String.eqb level "beginner"
               && JS.propGt (simplicity result) scoreContributionThreshold
            then [BeginnerLevel]
            else if String.eqb level "intermediate"
                    && JS.propGt (depth result) 0.4
            then [IntermediateDepth]
            else if String.eqb level "advanced"
                    && JS.propGt (depth result) scoreContributionThreshold
            then [AdvancedDepth]
            else []
        | None => []
        end in
      let profileLines :=
        when (0 <? List.length contributingFactors)%nat
          [ProfilePreference (Str.capitalize profile)
             (Str.joinComma (firstn 2 contributingFactors))] in
      let explanations :=
        categoryLines ++ tagLines ++ relevanceLines ++ readingTimeLines
        ++ budgetLines ++ skillLines ++ profileLines in
      Normal
        (if (List.length explanations =? 0)%nat then
           if Qle_bool 0.5 relevanceScore
           then [RelevantMatch (JS.round (relevanceScore * 100))]
           else [BestAvailable]
         else explanations)
  end.

(* ================================================================== *)
(** ** Sorting *)

(** [Array.prototype.sort(compareFn)] is a stable sort; an element [x]
    is placed after [y] exactly when [compareFn(x, y) > 0] (a [NaN]
    answer counts as [0]).  It is rendered as a stable insertion sort;
    [after x y] is the test [compareFn(x, y) > 0].

    The language fixes the outcome of the sort only for a consistent
    comparator.  With [(a, b) => b.score - a.score] that is the case when
    no score is [NaN], and there every stable sort returns the list
    [sortBy] returns.  Once a score is [NaN] the order is the engine's
    own: what is proved of such a list either holds of every arrangement
    of its elements, or is stated for an input on which every comparison
    of neighbours involves the [NaN] score, so that the array is left as
    it is. *)
Fixpoint insertBy {A : Type} (after : A -> A -> bool) (x : A) (l : list A)
  : list A :=
  match l with
  | [] => [x]
  | y :: l' => if after x y then y :: insertBy after x l' else x :: y :: l'
  end.

Definition sortBy {A : Type} (after : A -> A -> bool) (l : list A)
  : list A :=
  fold_right (insertBy after) [] l.

(* ================================================================== *)
(** ** Requests and ranked results *)

(** The argument of [rankResults]; a missing [profile], [constraints] or
    [results] takes the default of the destructuring pattern. *)
Record Request : Type := mkRequest {
  req_query : string;
  req_profile : option string;
  req_constraints : option Constraints;
  req_results : option (list SearchResult)
}.

(** The destructuring [{ query, profile = 'casual', constraints = {},
    results = [] } = request]. *)
Definition requestProfile (request : Request) : string :=
  match req_profile request with
  | Some p => p
  | None => "casual"
  end.

Definition requestConstraints (request : Request) : Constraints :=
  match req_constraints request with
  | Some c => c
  | None => noConstraints
  end.

Definition requestResults (request : Request) : list SearchResult :=
  match req_results request with
  | Some rs => rs
  | None => []
  end.

(** [{...result, score, profile, explanations}] *)
Record RankedResult : Type := mkRanked {
  item : SearchResult;
  score : JS.num;
  profileTag : string;
  explanations : list Explanation
}.

(** The comparator [(a, b) => b.score - a.score], as the test
    [compareFn(a, b) > 0]. *)
Definition scoreAfter (a b : RankedResult) : bool :=
  JS.gt (score b - score a)%js (JS.Num 0).

(* ================================================================== *)
(** ** The part both implementations share *)

Module Shared.

Section WithAdjuster.

(** The two files differ in [applyConstraintAdjustments] only. *)
Variable applyConstraintAdjustments : SearchResult -> Constraints -> JS.num.

(** The [metrics] object of [computePersonalizationScore].  A candidate
    without [readingTime], or with [readingTime] 0, counts as a 15-minute
    read. *)
Definition metricsOf (result : SearchResult) : list (string * Q) :=
  let readingTimeScore :=
    getReadingTimeScore (JS.orElse (readingTime result) 15) in
  [ ("simplicity", JS.orElse (simplicity result) 0);
    ("price", JS.orElse (price result) 0);
    ("reviews", JS.orElse (reviews result) 0);
    ("citations", JS.orElse (citations result) 0);
    ("depth", JS.orElse (depth result) 0);
    ("recency", JS.orElse (recency result) 0);
    ("readingTime", readingTimeScore) ].

(** One turn of the loop over [Object.entries(weights)], on the pair
    [(profileScore, totalWeight)]. *)
Definition accumulate (metrics : list (string * Q)) (acc : Q * Q)
  (entry : string * Q) : Q * Q :=
  let '(profileScore, totalWeight) := acc in
  let '(metric, weight) := entry in
  if String.eqb metric "relevance" then acc
  else
    match lookup metric metrics with
    | None => acc
    | Some value =>
        if negb (Qeq_bool weight 0)
        then (profileScore + value * weight, totalWeight + Qabs weight)
        else acc
    end.

(** The body of [computePersonalizationScore] below its guard, for the
    weight entries [weights].  The quotient is taken only when
    [totalWeight > 0]. *)
Definition personalizationFor (weights : Weights) (result : SearchResult)
  (constraints : Constraints) : JS.num :=
  let '(profileScore, totalWeight) :=
    fold_left (accumulate (metricsOf result)) weights (0, 0) in
  let normalizedProfileScore :=
    if negb (Qle_bool totalWeight 0) then profileScore / totalWeight
    else 0.5 in
  let constraintBonus := applyConstraintAdjustments result constraints in
  JS.max (JS.Num 0)
    (JS.min (JS.Num 1) (JS.Num normalizedProfileScore + constraintBonus)%js).

(** [computePersonalizationScore(result, profile, constraints)] *)
Definition computePersonalizationScore (result : SearchResult)
  (profile : string) (constraints : Constraints) : JS.num :=
  match weightsOf profile with
  | None => JS.Num 0.5
  | Some weights => personalizationFor weights result constraints
  end.

(** [(0.7 * relevanceScore) + (0.3 * personalizationScore)] *)
Definition combine (relevanceScore : Q) (personalizationScore : JS.num)
  : JS.num :=
  (JS.Num 0.7 * JS.Num relevanceScore + JS.Num 0.3 * personalizationScore)%js.

(** [scoreResult(result, profile, context)], the context given by its
    optional members. *)
Definition scoreResult (result : SearchResult) (profile : string)
  (ctxKeywords : option (list string)) (ctxQuery : option string)
  (ctxConstraints : option Constraints) : JS.num :=
  let queryKeywords :=
    match ctxKeywords with
    | Some ks => ks
    | None =>
        extractKeywords
          (match ctxQuery with
           | Some q => if String.eqb q "" then "" else q
           | None => ""
           end)
    end in
  let constraints :=
    match ctxConstraints with
    | Some c => c
    | None => noConstraints
    end in
  let relevanceScore := computeRelevanceScore result queryKeywords in
  let personalizationScore :=
    computePersonalizationScore result profile constraints in
  combine relevanceScore personalizationScore.

(** The callback of [intentFilteredResults.map] in both pipelines. *)
Definition scoreAndExplain (profile : string) (constraints : Constraints)
  (queryKeywords : list string) (result : SearchResult)
  : completion RankedResult :=
  let relevanceScore := computeRelevanceScore result queryKeywords in
  let personalizationScore :=
    computePersonalizationScore result profile constraints in
  let finalScore := combine relevanceScore personalizationScore in
  lines <- generateExplanations result profile constraints queryKeywords
             relevanceScore personalizationScore ;;
  Normal (mkRanked result finalScore profile lines).

End WithAdjuster.

End Shared.

(* ================================================================== *)
(** ** The server-side module, [ranking-engine.js] *)

Module Engine.

(** [applyConstraintAdjustments(result, constraints)].  [maxReadingTime]
    is not 0 where it divides, the constraint being truthy. *)
Definition applyConstraintAdjustments (result : SearchResult)
  (constraints : Constraints) : JS.num :=
  let maxPenalty := -0.25 in
  let maxBonus := 0.15 in
  let adjustment := JS.Num 0 in
  let adjustment :=
    if budget constraints then
      let priceScore := JS.orElse (price result) 0 in
      let budgetPenalty := (1 - priceScore) * maxPenalty * 0.8 in
      (adjustment + JS.Num budgetPenalty)%js
    else adjustment in
  let adjustment :=
    match activeReadingTime constraints with
    | Some limit =>
        let maxReadingTime := inject_Z limit in
        let resultReadingTime := JS.orElse (readingTime result) 15 in
        let adjustment :=
          if Qle_bool resultReadingTime maxReadingTime then
            (adjustment + JS.Num (maxBonus * 0.4))%js
          else
            let overageRatio :=
              Qmin 1 ((resultReadingTime - maxReadingTime) / maxReadingTime) in
            let readingTimePenalty := overageRatio * maxPenalty * 0.5 in
            (adjustment + JS.Num readingTimePenalty)%js in
        (adjustment
         + JS.ofProp (simplicity result) * JS.Num (maxBonus * 0.15))%js
    | None => adjustment
    end in
  let adjustment :=
    match activeSkillLevel constraints with
    | Some level =>
        if String.eqb level "beginner" then
          let adjustment :=
            (adjustment
             + JS.ofProp (simplicity result) * JS.Num (maxBonus * 0.6))%js in
          let advancedPenalty :=
            (JS.ofProp (depth result) * JS.Num maxPenalty * JS.Num 0.5)%js in
          (adjustment + advancedPenalty)%js
        else if String.eqb level "intermediate" then
          let depthOptimal :=
            if JS.propGt (depth result) 0.3 then JS.ofProp (depth result)
            else JS.Num 0.3 in
          (adjustment + depthOptimal * JS.Num (maxBonus * 0.2))%js
        else if String.eqb level "advanced" then
          let adjustment :=
            (adjustment
             + JS.ofProp (depth result) * JS.Num (maxBonus * 0.4))%js in
          let adjustment :=
            (adjustment
             + JS.ofProp (citations result) * JS.Num (maxBonus * 0.3))%js in
          let simplePenalty :=
            ((JS.Num 1 - JS.ofProp (depth result)) * JS.Num maxPenalty
             * JS.Num 0.1)%js in
          (adjustment + simplePenalty)%js
        else adjustment
    | None => adjustment
    end in
  JS.max (JS.Num maxPenalty) (JS.min (JS.Num maxBonus) adjustment).

Definition computePersonalizationScore :=
  Shared.computePersonalizationScore applyConstraintAdjustments.

Definition scoreResult := Shared.scoreResult applyConstraintAdjustments.

(** [rankResults(request)] *)
Definition rankResults (request : Request)
  : completion (list RankedResult) :=
  let query := req_query request in
  let profile := requestProfile request in
  let constraints := requestConstraints request in
  let results := requestResults request in
  if (List.length results =? 0)%nat then Normal []
  else
    let intentFilteredResults := filterByQueryIntent results query in
    if (List.length intentFilteredResults =? 0)%nat then Normal []
    else
      let queryKeywords := extractKeywords query in
      scoredResults <-
        mapM (Shared.scoreAndExplain applyConstraintAdjustments
                profile constraints queryKeywords)
          intentFilteredResults ;;
      Normal (sortBy scoreAfter scoredResults).

End Engine.

(* ================================================================== *)
(** ** The browser script, [app.js] *)

Module App.

(** [applyConstraintAdjustments(result, constraints)], the symmetric
    variant. *)
Definition applyConstraintAdjustments (result : SearchResult)
  (constraints : Constraints) : JS.num :=
  let maxAdjustment := 0.15 in
  let adjustment := JS.Num 0 in
  let adjustment :=
    if budget constraints then
      (adjustment + JS.ofProp (price result) * JS.Num (maxAdjustment * 0.4))%js
    else adjustment in
  let adjustment :=
    match activeReadingTime constraints with
    | Some limit =>
        let maxReadingTime := inject_Z limit in
        let resultReadingTime := JS.orElse (readingTime result) 15 in
        let adjustment :=
          if Qle_bool resultReadingTime maxReadingTime then
            (adjustment + JS.Num (maxAdjustment * 0.3))%js
          else (adjustment - JS.Num (maxAdjustment * 0.2))%js in
        (adjustment
         + JS.ofProp (simplicity result) * JS.Num (maxAdjustment * 0.1))%js
    | None => adjustment
    end in
  let adjustment :=
    match activeSkillLevel constraints with
    | Some level =>
        if String.eqb level "beginner" then
          let adjustment :=
            (adjustment
             + JS.ofProp (simplicity result)
               * JS.Num (maxAdjustment * 0.5))%js in
          (adjustment
           - JS.ofProp (depth result) * JS.Num (maxAdjustment * 0.1))%js
        else if String.eqb level "intermediate" then
          (adjustment
           + JS.ofProp (depth result) * JS.Num (maxAdjustment * 0.15))%js
        else if String.eqb level "advanced" then
          let adjustment :=
            (adjustment
             + JS.ofProp (depth result) * JS.Num (maxAdjustment * 0.3))%js in
          let adjustment :=
            (adjustment
             + JS.ofProp (citations result)
               * JS.Num (maxAdjustment * 0.2))%js in
          (adjustment
           - JS.ofProp (simplicity result)
             * JS.Num (maxAdjustment * 0.05))%js
        else adjustment
    | None => adjustment
    end in
  JS.max (JS.Num (- maxAdjustment)) (JS.min (JS.Num maxAdjustment) adjustment).

(** [rankAndDisplayResults(searchContext)], as the list handed to
    [displayResults]; the empty list stands for [showEmptyState()]. *)
Definition rankAndDisplayResults (results : list SearchResult)
  (profile : string) (constraints : Constraints) (query : string)
  : completion (list RankedResult) :=
  let intentFilteredResults := filterByQueryIntent results query in
  if (List.length intentFilteredResults =? 0)%nat then Normal []
  else
    let queryKeywords := extractKeywords query in
    scoredResults <-
      mapM (Shared.scoreAndExplain applyConstraintAdjustments
              profile constraints queryKeywords)
        intentFilteredResults ;;
    let allRankedResults := sortBy scoreAfter scoredResults in
    let topResults := firstn 3 allRankedResults in
    Normal topResults.

End App.

(* ================================================================== *)
(** ** Objects used as tables *)

(** The value of [table[key] || fallback] for a literal object [table]:
    an own entry, or a member inherited from [Object.prototype] (truthy,
    and without any of the properties the entries have), or the
    fallback. *)
Inductive Looked (A : Type) : Type :=
| Own (a : A)
| Inherited (name : string).
Arguments Own {A} a.
Arguments Inherited {A} name.

Definition lookupOr {A : Type} (key : string) (table : list (string * A))
  (fallback : A) : Looked A :=
  match lookup key table with
  | Some a => Own a
  | None =>
      if existsb (String.eqb key) inheritedNames then Inherited key
      else Own fallback
  end.

(* ================================================================== *)
(** ** The corpus cache of [ranking-engine.js] *)

Module Corpus.

(** [getDefaultResults()] *)
Definition getDefaultResults : list SearchResult :=
  [ mkResult 1 "Comprehensive Guide to Machine Learning"
      "https://example.com/ml-guide"
      "A complete introduction to machine learning concepts"
      (Some "course")
      (Some ["machine learning"; "course"; "tutorial"; "learning"])
      (Some 0.95) (Some 0.85) (Some 0.3) (Some 0.92) (Some 0.7) (Some 0.88)
      (Some 0.75) (Some 20) ].

(** [getMockResults()], on the module variable [mockResults] ([None] for
    [null]).  [file] is what reading and parsing [data/results.json]
    gives: an exception, or the [results] member of the parsed object,
    which may be missing; taking [.length] of a missing member throws
    inside the [try], so the default list is used.  An array is truthy
    even when empty. *)
Definition getMockResults (file : completion (option (list SearchResult)))
  (mockResults : option (list SearchResult))
  : list SearchResult * option (list SearchResult) :=
  match mockResults with
  | Some cached => (cached, Some cached)
  | None =>
      let loaded :=
        match file with
        | Normal (Some parsed) => parsed
        | Normal None => getDefaultResults
        | Throw _ => getDefaultResults
        end in
      (loaded, Some loaded)
  end.

End Corpus.

(* ================================================================== *)
(** ** Presentation helpers of [app.js] *)

Module View.

Record TrustBadge : Type := mkBadge {
  badgeClass : string;
  badgeIcon : string
}.

(** [getTrustBadge(trustScore)] *)
Definition getTrustBadge (trustScore : JS.num) : TrustBadge :=
  if JS.ge trustScore (JS.Num 85) then mkBadge "badge-excellent" "⭐⭐"
  else if JS.ge trustScore (JS.Num 70) then mkBadge "badge-good" "⭐"
  else if JS.ge trustScore (JS.Num 50) then mkBadge "badge-fair" "◐"
  else mkBadge "badge-low" "◑".

(** [getPriceLabel(price)] *)
Definition getPriceLabel (price : option Q) : string :=
  if JS.propGe price 0.8 then "Free/Cheap"
  else if JS.propGe price 0.6 then "Affordable"
  else if JS.propGe price 0.4 then "Moderate Cost"
  else "Expensive".

(** [getDepthLabel(depth)] *)
Definition getDepthLabel (depth : option Q) : string :=
  if JS.propGe depth 0.8 then "Very Deep"
  else if JS.propGe depth 0.6 then "Comprehensive"
  else if JS.propGe depth 0.4 then "Moderate Depth"
  else "Surface Level".

Record DecisionLabel : Type := mkLabel {
  label : string;
  labelCategory : string
}.

(** The first label that was returned, or the next attempt. *)
Definition orNext (attempt : option DecisionLabel)
  (next : DecisionLabel) : DecisionLabel :=
  match attempt with
  | Some found => found
  | None => next
  end.

(** [getDecisionLabel(result, profile)]; each block returns from the
    function when one of its two tests succeeds and falls through
    otherwise. *)
Definition getDecisionLabel (result : RankedResult) (profile : string)
  : DecisionLabel :=
  let r := item result in
  let studentBlock :=
    if String.eqb profile "student" then
      if JS.propGt (simplicity r) 0.8 && JS.propGt (reviews r) 0.75
      then Some (mkLabel "Best for Learning" "student")
      else if JS.propGt (simplicity r) 0.75
      then Some (mkLabel "Easy to Understand" "student")
      else None
    else None in
  let shopperBlock :=
    if String.eqb profile "shopper" then
      if JS.propGt (price r) 0.7 && JS.propGt (reviews r) 0.8
      then Some (mkLabel "Best Budget Choice" "shopper")
      else if JS.propGt (reviews r) 0.85
      then Some (mkLabel "Highly Trusted" "shopper")
      else None
    else None in
  let researcherBlock :=
    if String.eqb profile "researcher" then
      if JS.propGt (citations r) 0.85 && JS.propGt (depth r) 0.8
      then Some (mkLabel "Best for Research" "researcher")
      else if JS.propGt (citations r) 0.8
      then Some (mkLabel "Academically Rigorous" "researcher")
      else None
    else None in
  let casualBlock :=
    if String.eqb profile "casual" then
      if JS.propGt (recency r) 0.85 && JS.propGt (simplicity r) 0.75
      then Some (mkLabel "Current & Easy Read" "casual")
      else if JS.propGt (recency r) 0.8
      then Some (mkLabel "Fresh & Recent" "casual")
      else None
    else None in
  orNext studentBlock
    (orNext shopperBlock
       (orNext researcherBlock
          (orNext casualBlock
             (if JS.propGt (relevance r) 0.9
                 && JS.gt (score result) (JS.Num 0.8)
              then mkLabel "Top Match" "universal"
              else mkLabel "Recommended" "universal")))).

Record LabelColors : Type := mkColors {
  bg : string;
  text : string
}.

Definition universalColors : LabelColors := mkColors "#f3f4f6" "#374151".

(** [getLabelColors(category)] *)
Definition getLabelColors (category : string) : Looked LabelColors :=
  lookupOr category
    [ ("student", mkColors "#dbeafe" "#0c4a6e");
      ("shopper", mkColors "#fce7f3" "#831843");
      ("researcher", mkColors "#e0e7ff" "#3730a3");
      ("casual", mkColors "#dcfce7" "#166534");
      ("universal", universalColors) ]
    universalColors.

Record ProfileColor : Type := mkProfileColor {
  colorName : string;
  colorVariable : string;
  colorHex : string
}.

Definition casualColor : ProfileColor :=
  mkProfileColor "yellow" "--google-yellow" "#FBBC04".

(** [getProfileColor(profile)] *)
Definition getProfileColor (profile : string) : Looked ProfileColor :=
  lookupOr profile
    [ ("student", mkProfileColor "blue" "--google-blue" "#4285F4");
      ("shopper", mkProfileColor "green" "--google-green" "#34A853");
      ("researcher", mkProfileColor "red" "--google-red" "#EA4335");
      ("casual", casualColor) ]
    casualColor.

(** [getProfileClass(profile)] *)
Definition getProfileClass (profile : string) : string :=
  ("profile-" ++ profile)%string.

(** What [createResultCard(result, position)] computes for the card; the
    markup around these values is left out.  [whyMatch] is the list of
    [<li>] items, empty when the section is omitted. *)
Record Card : Type := mkCard {
  cardPosition : nat;
  cardResult : RankedResult;
  profileClass : string;
  profileColor : Looked ProfileColor;
  decisionLabel : DecisionLabel;
  labelColors : Looked LabelColors;
  trustScore : JS.num;
  trustBadge : TrustBadge;
  priceLabel : string;
  depthLabel : string;
  whyMatch : list Explanation
}.

Definition createResultCard (result : RankedResult) (position : nat)
  : Card :=
  let decision := getDecisionLabel result (profileTag result) in
  let trust := JS.percentOf (reviews (item result)) in
  mkCard position result
    (getProfileClass (profileTag result))
    (getProfileColor (profileTag result))
    decision
    (getLabelColors (labelCategory decision))
    trust
    (getTrustBadge trust)
    (getPriceLabel (price (item result)))
    (getDepthLabel (depth (item result)))
    (explanations result).

(** [limitedResults.forEach((result, index) => ... index + 1 ...)] *)
Fixpoint cardsFrom (index : nat) (limitedResults : list RankedResult)
  : list Card :=
  match limitedResults with
  | [] => []
  | result :: rest =>
      createResultCard result (index + 1) :: cardsFrom (S index) rest
  end.

(** The container after [displayResults(rankedResults)]: the cards, and
    the total shown in the line "Showing 5 of n results" when there is
    one. *)
Record Display : Type := mkDisplay {
  cards : list Card;
  countInfo : option nat
}.

Definition displayResults (rankedResults : list RankedResult) : Display :=
  let limitedResults := firstn 5 rankedResults in
  mkDisplay (cardsFrom 0 limitedResults)
    (if (5 <? List.length rankedResults)%nat
     then Some (List.length rankedResults)
     else None).

End View.

(* ================================================================== *)
(** ** The request handlers, [server.js] *)

Module Server.

(** One entry of [data.webPages.value] in the provider's answer. *)
Record BingItem : Type := mkBing {
  bingName : option string;
  bingUrl : option string;
  bingSnippet : option string
}.

(** [inferCategory(item)] *)
Definition inferCategory (item : BingItem) : string :=
  let url := Str.toLowerCase (Str.orElse (bingUrl item) "") in
  if Str.includes url "course" || Str.includes url "udemy"
     || Str.includes url "coursera" then "course"
  else if Str.includes url "book" || Str.includes url "amazon"
          || Str.includes url "goodreads" then "book"
  else if Str.includes url "paper" || Str.includes url "arxiv"
          || Str.includes url "scholar" then "research"
  else if Str.includes url "github" || Str.includes url "documentation"
  then "code"
  else if Str.includes url "product" || Str.includes url "shop"
  then "product"
  else if Str.includes url "news" || Str.includes url "blog" then "article"
  else "article".

(** The object [tagKeywords] of [inferTags], in source order. *)
Definition tagKeywords : list (string * list string) :=
  [ ("machine learning",
     ["machine learning"; "ml"; "ai"; "artificial intelligence"]);
    ("python", ["python"]);
    ("javascript", ["javascript"; "js"; "nodejs"; "node"]);
    ("web development", ["web"; "html"; "css"; "react"; "vue"]);
    ("data science", ["data science"; "data analytics"; "analytics"]);
    ("tutorial", ["tutorial"; "guide"; "how to"; "learn"]);
    ("documentation", ["documentation"; "docs"; "reference"]);
    ("example", ["example"; "code sample"]) ].

(** The text [inferTags] searches. *)
Definition contentOf (item : BingItem) : string :=
  Str.toLowerCase
    (Str.orElse (bingName item) "" ++ " "
     ++ Str.orElse (bingSnippet item) "")%string.

(** [inferTags(item)] *)
Definition inferTags (item : BingItem) : list string :=
  let content := contentOf item in
  let tags :=
    map fst
      (filter
         (fun entry =>
            existsb (fun keyword => Str.includes content keyword)
              (snd entry))
         tagKeywords) in
  if (0 <? List.length tags)%nat then tags else ["general"].

(** The eight calls of [Math.random()] made for one item, in the order of
    the object literal; each lies in [0, 1). *)
Record Draws : Type := mkDraws {
  drawRelevance : Q;
  drawSimplicity : Q;
  drawPrice : Q;
  drawReviews : Q;
  drawCitations : Q;
  drawDepth : Q;
  drawRecency : Q;
  drawReadingTime : Q
}.

(** The callback of [.map((item, index) => ...)] in [bingSearch].  The
    engine never reads [title], [url] and [summary]; a missing one is
    kept as the empty string. *)
Definition toResult (index : nat) (item : BingItem) (draws : Draws)
  : SearchResult :=
  let text (o : option string) :=
    match o with Some s => s | None => "" end in
  mkResult (Z.of_nat index + 1)
    (text (bingName item)) (text (bingUrl item)) (text (bingSnippet item))
    (Some (inferCategory item))
    (Some (inferTags item))
    (Some (0.8 + drawRelevance draws * 0.2))
    (Some (0.7 + drawSimplicity draws * 0.3))
    (Some (0.5 + drawPrice draws * 0.5))
    (Some (0.6 + drawReviews draws * 0.4))
    (Some (0.3 + drawCitations draws * 0.4))
    (Some (0.6 + drawDepth draws * 0.4))
    (Some (0.7 + drawRecency draws * 0.3))
    (Some (5 + inject_Z (Qfloor (drawReadingTime draws * 40)))).

(** The whole [.map], one record of draws per item. *)
Fixpoint transform (index : nat) (items : list BingItem)
  (draws : list Draws) : list SearchResult :=
  match items, draws with
  | item :: items', d :: draws' =>
      toResult index item d :: transform (S index) items' draws'
  | _, _ => []
  end.

(** The parameters of [GET /api/search] ([req.query]). *)
Record SearchParams : Type := mkParams {
  paramQ : option string;
  paramProfile : option string;
  paramBudget : option string;
  paramBudgetAmount : option string;
  paramCurrency : option string;
  paramReadingTime : option string;
  paramSkillLevel : option string
}.

(** The body of [POST /api/search]. *)
Record SearchBody : Type := mkBody {
  bodyQuery : option string;
  bodyProfile : option string;
  bodyConstraints : option Constraints
}.

Inductive RequestError : Type :=
| MissingQuery
| InvalidProfile (validProfiles : list string).

(** The answer of a handler: status 400 with an error, status 200 with
    the ranking, or status 500 from the [catch]. *)
Inductive Response : Type :=
| BadRequest (error : RequestError)
| Success (query profile : string) (totalResults : nat)
    (results : list RankedResult) (apiSource : string)
| InternalError.

Definition validProfiles : list string :=
  ["student"; "shopper"; "researcher"; "casual"].

(** The [try] around [bingSearch] and the choice
    [liveResults.length ? liveResults : mockResults]. *)
Definition chooseResults (bing : completion (list SearchResult))
  (mockResults : list SearchResult) : list SearchResult * string :=
  let '(liveResults, apiSource) :=
    match bing with
    | Normal found => (found, "bing")
    | Throw _ => ([], "mock")
    end in
  (if (List.length liveResults =? 0)%nat then mockResults else liveResults,
   apiSource).

(** The ranking and the answer built from it. *)
Definition respond (query profile : string) (constraints : Constraints)
  (bing : completion (list SearchResult)) (mockResults : list SearchResult)
  : Response :=
  let '(searchResults, apiSource) := chooseResults bing mockResults in
  match Engine.rankResults
          (mkRequest query (Some profile) (Some constraints)
             (Some searchResults)) with
  | Normal rankedResults =>
      Success query profile (List.length rankedResults) rankedResults
        apiSource
  | Throw _ => InternalError
  end.

Section Handlers.

(** [parseInt] and [parseFloat] on a parameter; [None] stands for
    [NaN]. *)
Variable parseInt : string -> option Z.
Variable parseFloat : string -> option Q.

(** The [constraints] object of the GET handler.  A [NaN] produced by a
    parser is falsy wherever the engine reads it, like [null]. *)
Definition parseConstraints (params : SearchParams) : Constraints :=
  mkConstraints
    (match paramBudget params with
     | Some s => String.eqb s "true"
     | None => false
     end)
    (match Str.truthy (paramBudgetAmount params) with
     | Some s => parseFloat s
     | None => None
     end)
    (Some (Str.orElse (paramCurrency params) "USD"))
    (match Str.truthy (paramReadingTime params) with
     | Some s => parseInt s
     | None => None
     end)
    (Str.truthy (paramSkillLevel params)).

(** [app.get('/api/search', ...)] *)
Definition handleGet (params : SearchParams)
  (bing : completion (list SearchResult)) (mockResults : list SearchResult)
  : Response :=
  match Str.truthy (paramQ params) with
  | None => BadRequest MissingQuery
  | Some query =>
      if String.eqb (Str.trim query) "" then BadRequest MissingQuery
      else
        let profile := Str.orElse (paramProfile params) "casual" in
        if negb (existsb (String.eqb profile) validProfiles)
        then BadRequest (InvalidProfile validProfiles)
        else respond query profile (parseConstraints params) bing mockResults
  end.

End Handlers.

(** [app.post('/api/search', ...)] *)
Definition handlePost (body : SearchBody)
  (bing : completion (list SearchResult)) (mockResults : list SearchResult)
  : Response :=
  match Str.truthy (bodyQuery body) with
  | None => BadRequest MissingQuery
  | Some query =>
      if String.eqb (Str.trim query) "" then BadRequest MissingQuery
      else
        let profile :=
          match bodyProfile body with
          | Some p => p
          | None => "casual"
          end in
        if negb (existsb (String.eqb profile) validProfiles)
        then BadRequest (InvalidProfile validProfiles)
        else
          let constraints :=
            match bodyConstraints body with
            | Some c => c
            | None => noConstraints
            end in
          let constraintsWithCurrency :=
            mkConstraints (budget constraints) (budgetAmount constraints)
              (Some (Str.orElse (currency constraints) "USD"))
              (maxReadingTime constraints) (skillLevel constraints) in
          respond query profile constraintsWithCurrency bing mockResults
  end.

End Server.

(* ================================================================== *)
(** * Vocabulary of the properties *)

(** The metrics that [applyConstraintAdjustments] of [ranking-engine.js]
    reads without a default. *)
Definition hasAdjusterMetrics (result : SearchResult) : Prop :=
  simplicity result <> None /\ depth result <> None
  /\ citations result <> None.

(** The value the specification gives for a profile without usable
    weights: the neutral 0.5 with the adjustment added, clamped to
    [0, 1]. *)
Definition neutralAdjusted (result : SearchResult)
  (constraints : Constraints) : JS.num :=
  JS.max (JS.Num 0)
    (JS.min (JS.Num 1)
       (JS.Num 0.5 + Engine.applyConstraintAdjustments result constraints)%js).

(** [totalWeight] at the end of the loop of
    [computePersonalizationScore]. *)
Definition totalWeight (weights : Weights) (result : SearchResult) : Q :=
  snd (fold_left (Shared.accumulate (Shared.metricsOf result)) weights (0, 0)).

(** The two generic lines of the fallback. *)
Definition isGeneric (line : Explanation) : bool :=
  match line with
  | RelevantMatch _ | BestAvailable => true
  | _ => false
  end.

(** [a] may stand before [b]: both scores are numbers and that of [a] is
    not the smaller. *)
Definition scoreGe (a b : RankedResult) : Prop :=
  match score a, score b with
  | JS.Num x, JS.Num y => y <= x
  | _, _ => False
  end.

(** The results whose final score is the number [v]. *)
Definition scoreIs (v : Q) (r : RankedResult) : bool :=
  match score r with
  | JS.Num x => Qeq_bool x v
  | JS.NaN => false
  end.

Definition numericScore (r : RankedResult) : Prop := JS.isNum (score r).

(** The final score the pipeline attaches to a candidate of a request. *)
Definition finalScore (request : Request) (result : SearchResult) : JS.num :=
  (JS.Num 0.7
     * JS.Num (computeRelevanceScore result
                 (extractKeywords (req_query request)))
   + JS.Num 0.3
     * Engine.computePersonalizationScore result (requestProfile request)
         (requestConstraints request))%js.

(** The candidates of a request that pass the intent filter. *)
Definition survivors (request : Request) : list SearchResult :=
  filterByQueryIntent (requestResults request) (req_query request).

(** Every character of [s] satisfies [p]. *)
Fixpoint allChars (p : ascii -> bool) (s : string) : bool :=
  match s with
  | EmptyString => true
  | String c s' => p c && allChars p s'
  end.

(** The candidate [result] with its [relevance] replaced. *)
Definition withRelevance (result : SearchResult) (value : option Q)
  : SearchResult :=
  mkResult (id result) (title result) (url result) (summary result)
    (category result) (tags result) value (simplicity result)
    (price result) (reviews result) (citations result) (depth result)
    (recency result) (readingTime result).

(** No constraint of [constraints] is active (truthy). *)
Definition inactive (constraints : Constraints) : Prop :=
  budget constraints = false
  /\ activeReadingTime constraints = None
  /\ activeSkillLevel constraints = None.

(** [constraints] with its [skillLevel] removed. *)
Definition withoutSkill (constraints : Constraints) : Constraints :=
  mkConstraints (budget constraints) (budgetAmount constraints)
    (currency constraints) (maxReadingTime constraints) None.

(** The personalization score of the browser script. *)
Definition appPersonalizationScore :=
  Shared.computePersonalizationScore App.applyConstraintAdjustments.

(** The metrics the adjuster of [app.js] reads without a default. *)
Definition hasAppAdjusterMetrics (result : SearchResult) : Prop :=
  hasAdjusterMetrics result /\ price result <> None.

(** The skill levels the adjusters and the explanations know. *)
Definition knownSkillLevels : list string :=
  ["beginner"; "intermediate"; "advanced"].

(** The request [rankAndDisplayResults] stands for. *)
Definition contextRequest (results : list SearchResult) (profile : string)
  (constraints : Constraints) (query : string) : Request :=
  mkRequest query (Some profile) (Some constraints) (Some results).

(** [request] with another candidate list. *)
Definition withResults (request : Request) (results : list SearchResult)
  : Request :=
  mkRequest (req_query request) (req_profile request)
    (req_constraints request) (Some results).

(** The categories [inferCategory] can answer. *)
Definition inferredCategories : list string :=
  ["course"; "book"; "research"; "code"; "product"; "article"].



(** The query parameter is missing or consists of white space only. *)
Definition blankQuery (q : option string) : Prop :=
  match q with
  | Some s => allChars Str.isSpace s = true
  | None => True
  end.

(** The parameters without [skillLevel]. *)
Definition withoutSkillParam (params : Server.SearchParams)
  : Server.SearchParams :=
  Server.mkParams (Server.paramQ params) (Server.paramProfile params)
    (Server.paramBudget params) (Server.paramBudgetAmount params)
    (Server.paramCurrency params) (Server.paramReadingTime params) None.

(** The candidate [result] with its [readingTime] replaced, or removed. *)
Definition withMinutes (result : SearchResult) (minutes : option Q)
  : SearchResult :=
  mkResult (id result) (title result) (url result) (summary result)
    (category result) (tags result) (relevance result) (simplicity result)
    (price result) (reviews result) (citations result) (depth result)
    (recency result) minutes.









(* ================================================================== *)
(** * Properties *)

(** ** Sample data *)

(** A candidate with every metric set to [v]. *)
Definition uniform (n : Z) (cat : string) (ts : list string) (v : Q)
  : SearchResult :=
  mkResult n "Sample" "https://example.com" "A sample entry"
    (Some cat) (Some ts) (Some v) (Some v) (Some v) (Some v) (Some v)
    (Some v) (Some v) (Some 20).

(** The only entry of [getDefaultResults()]. *)
Definition mlGuide : SearchResult :=
  mkResult 1 "Comprehensive Guide to Machine Learning"
    "https://example.com/ml-guide"
    "A complete introduction to machine learning concepts"
    (Some "course")
    (Some ["machine learning"; "course"; "tutorial"; "learning"])
    (Some 0.95) (Some 0.85) (Some 0.3) (Some 0.92) (Some 0.7) (Some 0.88)
    (Some 0.75) (Some 20).

(** An entry whose data lacks [category] and [simplicity]. *)
Definition sparse : SearchResult :=
  mkResult 2 "Untitled" "https://example.com/x" ""
    None (Some ["cooking"]) (Some 0.5) None (Some 0.3) (Some 0.5)
    (Some 0.5) (Some 0.5) (Some 0.5) (Some 20).

Definition withReadingTime (m : Z) : Constraints :=
  mkConstraints false None None (Some m) None.

Definition withBudget : Constraints :=
  mkConstraints true (Some 50) (Some "USD") None None.

(** Six candidates that all match the query ["machine learning"]. *)
Definition sixCandidates : list SearchResult :=
  [ uniform 1 "course" ["machine learning"] 0.9;
    uniform 2 "course" ["machine learning"] 0.8;
    uniform 3 "course" ["machine learning"] 0.7;
    uniform 4 "course" ["machine learning"] 0.6;
    uniform 5 "course" ["machine learning"] 0.5;
    uniform 6 "course" ["machine learning"] 0.4 ].

Definition sixRequest : Request :=
  mkRequest "machine learning" (Some "student") None (Some sixCandidates).

Definition twoRequest : Request :=
  mkRequest "machine learning" (Some "student")
    (Some (withReadingTime 30)) (Some [mlGuide; sparse]).

Definition threeRequest : Request :=
  mkRequest "ml" (Some "shopper") None
    (Some [ uniform 1 "course" [] 0.9; uniform 2 "course" [] 0.4;
            uniform 3 "course" [] 0.7 ]).

(** An entry that has neither [category] nor [tags]. *)
Definition bare : SearchResult :=
  mkResult 3 "Bare" "https://example.com/bare" "" None None (Some 0.4)
    (Some 0.5) (Some 0.5) (Some 0.5) (Some 0.5) (Some 0.5) (Some 0.5) None.

(** Constraints whose members are all falsy: no budget flag, a reading
    time of 0 and an empty skill level. *)
Definition falsyConstraints : Constraints :=
  mkConstraints false (Some 10) (Some "USD") (Some 0%Z) (Some "").

Definition expertConstraints : Constraints :=
  mkConstraints true None (Some "USD") (Some 30%Z) (Some "expert").

Definition beginnerConstraints : Constraints :=
  mkConstraints true (Some 50) (Some "USD") (Some 30%Z) (Some "beginner").

Definition htmlPage : Server.BingItem :=
  Server.mkBing (Some "HTML Tutorial")
    (Some "https://www.w3schools.com/html/") (Some "Well organized pages").

Definition someDraws : Server.Draws :=
  Server.mkDraws 0.5 0.25 0.75 0.1 0.9 0.3 0.6 0.99.

Definition expertParams : Server.SearchParams :=
  Server.mkParams (Some "machine learning") (Some "student") None None None
    (Some "30") (Some "expert").

(** A stand-in for [parseInt] on the sample parameters. *)
Definition sampleParseInt (s : string) : option Z :=
  if String.eqb s "30" then Some 30%Z else None.

Definition sampleParseFloat (s : string) : option Q := None.

(** A ranked result around [mlGuide], as the pipeline builds it. *)
Definition rankedGuide : RankedResult :=
  mkRanked mlGuide (JS.Num 0.85) "student" [BestAvailable].

(** Three candidates that pass the intent filter; the second lacks
    [category] and [simplicity]. *)
Definition mixedRequest : Request :=
  mkRequest "machine learning" (Some "student") (Some (withReadingTime 30))
    (Some [ uniform 1 "course" ["machine learning"] 0.4; sparse;
            uniform 3 "course" ["machine learning"] 0.9 ]).

(* ------------------------------------------------------------------ *)
(** ** Reading-time normalizer *)

Lemma Qle_bool_false (x y : Q) : Qle_bool x y = false -> y < x.
Proof.
  intros H. apply Qnot_le_lt. intros Hle.
  apply Qle_bool_iff in Hle. congruence.
Qed.

Lemma getReadingTimeScore_low (t : Q) :
  t <= 5 -> getReadingTimeScore t = 1.0.
Proof.
  intros H. unfold getReadingTimeScore.
  apply Qle_bool_iff in H. now rewrite H.
Qed.

Lemma getReadingTimeScore_high (t : Q) :
  60 <= t -> getReadingTimeScore t = 0.0.
Proof.
  intros H. unfold getReadingTimeScore.
  destruct (Qle_bool t 5) eqn:E5.
  - apply Qle_bool_iff in E5. lra.
  - apply Qle_bool_iff in H. now rewrite H.
Qed.

Lemma getReadingTimeScore_mid (t : Q) :
  5 < t -> t < 60 ->
  getReadingTimeScore t = 1.0 - ((t - 5) / (60 - 5)).
Proof.
  intros H5 H60. unfold getReadingTimeScore.
  destruct (Qle_bool t 5) eqn:E5.
  - apply Qle_bool_iff in E5. lra.
  - destruct (Qle_bool 60 t) eqn:E60.
    + apply Qle_bool_iff in E60. lra.
    + reflexivity.
Qed.

Lemma getReadingTimeScore_range (t : Q) :
  0 <= getReadingTimeScore t <= 1.
Proof.
  unfold getReadingTimeScore.
  destruct (Qle_bool t 5) eqn:E5; [lra|].
  destruct (Qle_bool 60 t) eqn:E60; [lra|].
  apply Qle_bool_false in E5, E60.
  assert (E : (t - 5) / (60 - 5) == (t - 5) * (1 # 55)) by (field; lra).
  rewrite E. lra.
Qed.

Lemma getReadingTimeScore_antitone (t1 t2 : Q) :
  t1 <= t2 -> getReadingTimeScore t2 <= getReadingTimeScore t1.
Proof.
  intros H.
  destruct (Qlt_le_dec 5 t1) as [L1|L1].
  2:{ rewrite (getReadingTimeScore_low t1 L1).
      destruct (getReadingTimeScore_range t2). lra. }
  destruct (Qlt_le_dec t2 60) as [L2|L2].
  2:{ rewrite (getReadingTimeScore_high t2 L2).
      destruct (getReadingTimeScore_range t1). lra. }
  rewrite (getReadingTimeScore_mid t1), (getReadingTimeScore_mid t2)
    by lra.
  assert (E : forall t, (t - 5) / (60 - 5) == (t - 5) * (1 # 55))
    by (intros; field; lra).
  rewrite !E. lra.
Qed.

(** C8.  The reading-time normalizer is 1 up to 5 minutes, 0 from 60
    minutes on and [1 - (t - 5) / (60 - 5)] in between, so that it is 0.5
    at 32.5 minutes; and it never increases: [t1 < t2] gives
    [f t1 >= f t2]. *)
Theorem getReadingTimeScore_piecewise_antitone :
  (forall t, t <= 5 -> getReadingTimeScore t == 1)
  /\ (forall t, 60 <= t -> getReadingTimeScore t == 0)
  /\ (forall t, 5 < t -> t < 60 ->
        getReadingTimeScore t == 1 - (t - 5) / (60 - 5))
  /\ getReadingTimeScore 5 == 1
  /\ getReadingTimeScore 60 == 0
  /\ getReadingTimeScore 32.5 == 0.5
  /\ (forall t1 t2, t1 < t2 ->
        getReadingTimeScore t2 <= getReadingTimeScore t1).
Proof.
  split; [|split; [|split; [|split; [|split; [|split]]]]].
  - intros t H. rewrite getReadingTimeScore_low by exact H. reflexivity.
  - intros t H. rewrite getReadingTimeScore_high by exact H. reflexivity.
  - intros t H1 H2. rewrite getReadingTimeScore_mid by assumption.
    apply Qplus_comp; reflexivity.
  - reflexivity.
  - reflexivity.
  - reflexivity.
  - intros t1 t2 H. apply getReadingTimeScore_antitone. lra.
Qed.

Lemma getReadingTimeScore_piecewise_antitone_witness :
  getReadingTimeScore 3 == 1
  /\ getReadingTimeScore 75 == 0
  /\ getReadingTimeScore 16 == 1 - (16 - 5) / (60 - 5)
  /\ getReadingTimeScore 45 <= getReadingTimeScore 10.
Proof.
  destruct getReadingTimeScore_piecewise_antitone
    as (Hlow & Hhigh & Hmid & _ & _ & _ & Hmono).
  split; [apply Hlow; discriminate|].
  split; [apply Hhigh; discriminate|].
  split; [apply Hmid; reflexivity|].
  apply Hmono; reflexivity.
Defined.

(* ------------------------------------------------------------------ *)
(** ** Keywords and the intent filter *)

Lemma isSpace_lowerChar (c : ascii) :
  Str.isSpace (Str.lowerChar c) = Str.isSpace c.
Proof.
  destruct c as [[] [] [] [] [] [] [] []]; reflexivity.
Qed.

Lemma length_toLowerCase (s : string) :
  String.length (Str.toLowerCase s) = String.length s.
Proof.
  induction s as [|c s IH]; simpl; congruence.
Qed.

Lemma splitFrom_toLowerCase (s : string) :
  forall inGap,
    Str.splitFrom inGap (Str.toLowerCase s)
    = map Str.toLowerCase (Str.splitFrom inGap s).
Proof.
  induction s as [|c s IH]; intros inGap; simpl.
  - reflexivity.
  - rewrite isSpace_lowerChar.
    destruct (Str.isSpace c).
    + destruct inGap; simpl; now rewrite IH.
    + rewrite IH. destruct (Str.splitFrom false s); reflexivity.
Qed.

Lemma short_tokens_no_keywords (query : string) :
  Forall (fun token => (String.length token <= 3)%nat)
    (Str.splitWhitespace query) ->
  extractKeywords query = [].
Proof.
  intros H. unfold extractKeywords, Str.splitWhitespace in *.
  rewrite splitFrom_toLowerCase.
  induction H as [|token tokens Htoken _ IH]; simpl.
  - reflexivity.
  - rewrite length_toLowerCase.
    destruct (Nat.ltb_spec 3 (String.length token)); [lia|exact IH].
Qed.

Lemma no_keywords_filter_identity (results : list SearchResult)
  (query : string) :
  extractKeywords query = [] -> filterByQueryIntent results query = results.
Proof.
  intros H. unfold filterByQueryIntent. now rewrite H.
Qed.

(** C7.  A query whose white-space separated tokens all have at most three
    characters has no keyword, and for a query without keywords the
    intent filter returns the candidate list as it is. *)
Theorem filterByQueryIntent_no_keywords :
  forall (results : list SearchResult) (query : string),
    (Forall (fun token => (String.length token <= 3)%nat)
       (Str.splitWhitespace query) ->
     extractKeywords query = [])
    /\ (extractKeywords query = [] ->
        filterByQueryIntent results query = results).
Proof.
  intros results query. split.
  - apply short_tokens_no_keywords.
  - apply no_keywords_filter_identity.
Qed.

Lemma filterByQueryIntent_no_keywords_witness :
  extractKeywords "a to" = []
  /\ filterByQueryIntent [mlGuide; sparse] "a to" = [mlGuide; sparse].
Proof.
  destruct (filterByQueryIntent_no_keywords [mlGuide; sparse] "a to")
    as [Hshort Hsame].
  assert (E : extractKeywords "a to" = []).
  { apply Hshort. repeat constructor. }
  split; [exact E | exact (Hsame E)].
Defined.

Lemma includes_empty (s : string) : Str.includes s "" = true.
Proof.
  destruct s; reflexivity.
Qed.

Lemma matchesKeyword_empty_tag (keyword : string) :
  matchesKeyword "" keyword = true.
Proof.
  unfold matchesKeyword. rewrite includes_empty. apply orb_true_r.
Qed.

Lemma admits_without_category (keywords : list string)
  (result : SearchResult) :
  keywords <> [] ->
  category result = None \/ category result = Some "" ->
  admits keywords result = true.
Proof.
  intros Hk Hc. unfold admits.
  assert (E : match category result with Some c => c | None => "" end = "")
    by (destruct Hc as [-> | ->]; reflexivity).
  rewrite E.
  destruct keywords as [|keyword keywords]; [congruence|].
  cbn [map existsb Str.toLowerCase].
  now rewrite matchesKeyword_empty_tag.
Qed.

(** C10.  Under a query that has keywords, a candidate whose [category]
    is missing or empty passes the intent filter whatever its tags are:
    the empty string heads its tag list and every keyword contains it. *)
Theorem filterByQueryIntent_admits_uncategorised :
  forall (results : list SearchResult) (query : string)
         (result : SearchResult),
    extractKeywords query <> [] ->
    category result = None \/ category result = Some "" ->
    In result results ->
    admits (extractKeywords query) result = true
    /\ In result (filterByQueryIntent results query).
Proof.
  intros results query result Hk Hc Hin.
  pose proof (admits_without_category _ result Hk Hc) as Hadm.
  split; [exact Hadm|].
  unfold filterByQueryIntent.
  destruct (extractKeywords query) as [|k ks] eqn:E; [congruence|].
  cbn [List.length Nat.eqb].
  apply filter_In. split; assumption.
Qed.

Lemma filterByQueryIntent_admits_uncategorised_witness :
  admits (extractKeywords "machine learning tutorial") sparse = true
  /\ In sparse
       (filterByQueryIntent [mlGuide; sparse] "machine learning tutorial").
Proof.
  apply (filterByQueryIntent_admits_uncategorised
           [mlGuide; sparse] "machine learning tutorial" sparse).
  - discriminate.
  - left. reflexivity.
  - right. left. reflexivity.
Defined.

(* ------------------------------------------------------------------ *)
(** ** Numbers *)

Lemma Qclamp_range (lo hi x : Q) :
  lo <= hi -> lo <= Qmax lo (Qmin hi x) /\ Qmax lo (Qmin hi x) <= hi.
Proof.
  intros H. split.
  - apply Q.le_max_l.
  - apply Q.max_lub; [exact H | apply Q.le_min_l].
Qed.

(** [Math.max(lo, Math.min(hi, a))] is [NaN] or lies in [lo, hi]. *)
Lemma clamp_range_or_NaN (lo hi : Q) (a : JS.num) :
  lo <= hi ->
  match JS.max (JS.Num lo) (JS.min (JS.Num hi) a) with
  | JS.Num x => lo <= x /\ x <= hi
  | JS.NaN => a = JS.NaN
  end.
Proof.
  intros H. destruct a as [x|]; simpl; [now apply Qclamp_range | reflexivity].
Qed.

Lemma isNum_clamp (lo hi : Q) (a : JS.num) :
  JS.isNum a -> JS.isNum (JS.max (JS.Num lo) (JS.min (JS.Num hi) a)).
Proof. destruct a; simpl; tauto. Qed.

Ltac js_simpl :=
  cbn [JS.isNum JS.add JS.sub JS.mul JS.max JS.min JS.ofProp JS.within
       JS.eq].

Ltac split_branches :=
  repeat match goal with
         | |- context [match ?x with _ => _ end] => destruct x
         end.

(* ------------------------------------------------------------------ *)
(** ** The constraint adjuster *)

Lemma applyConstraintAdjustments_isNum (result : SearchResult)
  (constraints : Constraints) :
  hasAdjusterMetrics result ->
  JS.isNum (Engine.applyConstraintAdjustments result constraints).
Proof.
  intros (Hs & Hd & Hc). unfold Engine.applyConstraintAdjustments.
  destruct (simplicity result) as [s|]; [|congruence].
  destruct (depth result) as [d|]; [|congruence].
  destruct (citations result) as [c|]; [|congruence].
  apply isNum_clamp.
  split_branches; js_simpl; exact I.
Qed.

(** Whatever the candidate, the adjustment is [NaN] or within
    [-0.25, 0.15]. *)
Lemma applyConstraintAdjustments_range_or_NaN (result : SearchResult)
  (constraints : Constraints) :
  match Engine.applyConstraintAdjustments result constraints with
  | JS.Num x => -0.25 <= x /\ x <= 0.15
  | JS.NaN => True
  end.
Proof.
  unfold Engine.applyConstraintAdjustments.
  match goal with
  | |- match JS.max _ (JS.min _ ?a) with _ => _ end =>
      pose proof (clamp_range_or_NaN (-0.25) 0.15 a) as H; cbv zeta;
      destruct (JS.max (JS.Num (-0.25)) (JS.min (JS.Num 0.15) a))
  end.
  - apply H. discriminate.
  - exact I.
Qed.

(** For a candidate that carries the metrics read, the adjustment lies in
    [-0.25, 0.15]. *)
Lemma applyConstraintAdjustments_bounded (result : SearchResult)
  (constraints : Constraints) :
  hasAdjusterMetrics result ->
  JS.within (-0.25) 0.15
    (Engine.applyConstraintAdjustments result constraints).
Proof.
  intros H.
  pose proof (applyConstraintAdjustments_isNum result constraints H) as HN.
  pose proof (applyConstraintAdjustments_range_or_NaN result constraints) as HR.
  destruct (Engine.applyConstraintAdjustments result constraints);
    simpl in *; tauto.
Qed.

(** C3.  A candidate without [simplicity], ranked under a reading-time
    ceiling of 30 minutes: the adjustment is [NaN], outside
    [-0.25, 0.15]. *)
Theorem applyConstraintAdjustments_missing_metric :
  Engine.applyConstraintAdjustments sparse (withReadingTime 30) = JS.NaN
  /\ ~ JS.within (-0.25) 0.15
         (Engine.applyConstraintAdjustments sparse (withReadingTime 30)).
Proof.
  assert (E : Engine.applyConstraintAdjustments sparse (withReadingTime 30)
              = JS.NaN) by reflexivity.
  split; [exact E|]. rewrite E. simpl. tauto.
Qed.

(* ------------------------------------------------------------------ *)
(** ** Score ranges *)

Lemma computeRelevanceScore_range (result : SearchResult)
  (queryKeywords : list string) :
  0 <= computeRelevanceScore result queryKeywords
  /\ computeRelevanceScore result queryKeywords <= 1.
Proof.
  unfold computeRelevanceScore.
  repeat match goal with
         | |- context [let '(_, _) := ?p in _] => destruct p
         end.
  apply Qclamp_range. discriminate.
Qed.

Lemma computePersonalizationScore_range_or_NaN (result : SearchResult)
  (profile : string) (constraints : Constraints) :
  match Engine.computePersonalizationScore result profile constraints with
  | JS.Num x => 0 <= x /\ x <= 1
  | JS.NaN => Engine.applyConstraintAdjustments result constraints = JS.NaN
  end.
Proof.
  unfold Engine.computePersonalizationScore,
    Shared.computePersonalizationScore.
  destruct (weightsOf profile) as [weights|].
  - unfold Shared.personalizationFor.
    destruct (fold_left _ weights (0, 0)) as [profileScore totalWeight].
    cbv zeta.
    match goal with
    | |- match JS.max _ (JS.min _ ?a) with _ => _ end =>
        pose proof (clamp_range_or_NaN 0 1 a) as H;
        destruct (JS.max (JS.Num 0) (JS.min (JS.Num 1) a))
    end.
    + apply H. discriminate.
    + assert (H' := H ltac:(discriminate)).
      destruct (Engine.applyConstraintAdjustments result constraints);
        [discriminate H' | reflexivity].
  - split; discriminate.
Qed.

Lemma computePersonalizationScore_range (result : SearchResult)
  (profile : string) (constraints : Constraints) :
  hasAdjusterMetrics result ->
  JS.within 0 1
    (Engine.computePersonalizationScore result profile constraints).
Proof.
  intros H.
  pose proof (applyConstraintAdjustments_isNum result constraints H) as HN.
  pose proof (computePersonalizationScore_range_or_NaN
                result profile constraints) as HR.
  destruct (Engine.computePersonalizationScore result profile constraints).
  - exact HR.
  - rewrite HR in HN. exact HN.
Qed.

Lemma combine_range (relevanceScore : Q) (personalizationScore : JS.num) :
  0 <= relevanceScore <= 1 ->
  JS.within 0 1 personalizationScore ->
  JS.within 0 1 (Shared.combine relevanceScore personalizationScore).
Proof.
  intros Hr Hp. destruct personalizationScore as [p|]; [|destruct Hp].
  unfold Shared.combine. js_simpl. simpl in Hp. lra.
Qed.

(** For a candidate that carries the metrics the adjuster reads, the three
    scores lie in [0, 1]. *)
Lemma scores_in_unit_interval (result : SearchResult)
  (queryKeywords : list string) (profile : string)
  (constraints : Constraints) :
  hasAdjusterMetrics result ->
  let relevanceScore := computeRelevanceScore result queryKeywords in
  let personalizationScore :=
    Engine.computePersonalizationScore result profile constraints in
  (0 <= relevanceScore /\ relevanceScore <= 1)
  /\ JS.within 0 1 personalizationScore
  /\ JS.within 0 1 (Shared.combine relevanceScore personalizationScore).
Proof.
  intros H relevanceScore personalizationScore.
  pose proof (computeRelevanceScore_range result queryKeywords) as Hr.
  pose proof (computePersonalizationScore_range result profile constraints H)
    as Hp.
  repeat split; try apply Hr; try exact Hp.
  all: apply (combine_range _ _ Hr Hp).
Qed.

(** C5.  For the candidate without [simplicity] under a reading-time
    ceiling the relevance score is in [0, 1], but the personalization
    score and the final score are [NaN], outside [0, 1]. *)
Theorem scores_missing_metric :
  let relevanceScore := computeRelevanceScore sparse [] in
  let personalizationScore :=
    Engine.computePersonalizationScore sparse "student"
      (withReadingTime 30) in
  let finalScore := Shared.combine relevanceScore personalizationScore in
  (0 <= relevanceScore /\ relevanceScore <= 1)
  /\ personalizationScore = JS.NaN
  /\ finalScore = JS.NaN
  /\ ~ JS.within 0 1 personalizationScore
  /\ ~ JS.within 0 1 finalScore.
Proof.
  cbv zeta.
  assert (Ep : Engine.computePersonalizationScore sparse "student"
                 (withReadingTime 30) = JS.NaN) by reflexivity.
  rewrite Ep.
  split; [apply computeRelevanceScore_range|].
  repeat split; simpl; tauto.
Qed.

(* ------------------------------------------------------------------ *)
(** ** Profiles without weights *)

Lemma personalizationFor_zero_total (weights : Weights)
  (result : SearchResult) (constraints : Constraints) :
  totalWeight weights result == 0 ->
  Shared.personalizationFor Engine.applyConstraintAdjustments
    weights result constraints
  = neutralAdjusted result constraints.
Proof.
  unfold totalWeight, Shared.personalizationFor, neutralAdjusted.
  destruct (fold_left _ weights (0, 0)) as [profileScore total].
  simpl snd. intros H.
  assert (E : Qle_bool total 0 = true) by (apply Qle_bool_iff; lra).
  now rewrite E.
Qed.

(** C4, as the code has it.  Where [profileWeights] has no value for the
    profile, the personalization score is the bare 0.5, no adjustment
    added; where weights exist and their total absolute weight is zero,
    it is [clamp(0.5 + adjustment, 0, 1)]. *)
Theorem computePersonalizationScore_neutral :
  forall (result : SearchResult) (profile : string)
         (constraints : Constraints),
    (weightsOf profile = None ->
     Engine.computePersonalizationScore result profile constraints
     = JS.Num 0.5)
    /\ (forall weights,
          weightsOf profile = Some weights ->
          totalWeight weights result == 0 ->
          Engine.computePersonalizationScore result profile constraints
          = neutralAdjusted result constraints).
Proof.
  intros result profile constraints.
  unfold Engine.computePersonalizationScore,
    Shared.computePersonalizationScore.
  split.
  - intros ->. reflexivity.
  - intros weights -> H. now apply personalizationFor_zero_total.
Qed.

Lemma computePersonalizationScore_neutral_witness :
  Engine.computePersonalizationScore mlGuide "guest" withBudget = JS.Num 0.5
  /\ Engine.computePersonalizationScore mlGuide "toString" withBudget
     = neutralAdjusted mlGuide withBudget.
Proof.
  split.
  - apply (computePersonalizationScore_neutral mlGuide "guest" withBudget).
    reflexivity.
  - apply (computePersonalizationScore_neutral mlGuide "toString" withBudget)
      with (weights := []); reflexivity.
Defined.

(** C4 as stated fails for the unknown profile ["guest"] under a budget
    constraint: the code answers 0.5, the stated value is 0.36. *)
Lemma computePersonalizationScore_unknown_profile_unadjusted :
  weightsOf "guest" = None
  /\ Engine.computePersonalizationScore mlGuide "guest" withBudget
     =js= JS.Num 0.5
  /\ neutralAdjusted mlGuide withBudget =js= JS.Num 0.36
  /\ ~ (Engine.computePersonalizationScore mlGuide "guest" withBudget
        =js= neutralAdjusted mlGuide withBudget).
Proof.
  repeat split; vm_compute; congruence.
Qed.

(** None of the four shipped profiles has a zero total weight. *)
Lemma shipped_profiles_total_weight (result : SearchResult) :
  totalWeight student result == 0.8
  /\ totalWeight shopper result == 0.8
  /\ totalWeight researcher result == 0.8
  /\ totalWeight casual result == 0.75.
Proof.
  unfold totalWeight, Shared.metricsOf.
  generalize (JS.orElse (simplicity result) 0) (JS.orElse (price result) 0)
    (JS.orElse (reviews result) 0) (JS.orElse (citations result) 0)
    (JS.orElse (depth result) 0) (JS.orElse (recency result) 0)
    (getReadingTimeScore (JS.orElse (readingTime result) 15)).
  intros simplicityV priceV reviewsV citationsV depthV recencyV readingV.
  repeat split; vm_compute; reflexivity.
Qed.

(* ------------------------------------------------------------------ *)
(** ** Explanations *)

Lemma specific_when (b : bool) (lines : list Explanation) :
  Forall (fun line => isGeneric line = false) lines ->
  Forall (fun line => isGeneric line = false) (when b lines).
Proof.
  destruct b; simpl; auto.
Qed.

Lemma generateExplanations_with_weights (result : SearchResult)
  (profile : string) (constraints : Constraints)
  (queryKeywords : list string) (relevanceScore : Q)
  (personalizationScore : JS.num) (weights : Weights) :
  weightsOf profile = Some weights ->
  exists lines,
    generateExplanations result profile constraints queryKeywords
      relevanceScore personalizationScore = Normal lines
    /\ (1 <= List.length lines)%nat
    /\ (Forall (fun line => isGeneric line = false) lines
        \/ (lines = [RelevantMatch (JS.round (relevanceScore * 100))]
            /\ 0.5 <= relevanceScore)
        \/ (lines = [BestAvailable] /\ relevanceScore < 0.5)).
Proof.
  intros Hw. unfold generateExplanations. rewrite Hw. cbv zeta.
  match goal with
  | |- context [(List.length ?l =? 0)%nat] =>
      assert (Hspecific : Forall (fun line => isGeneric line = false) l);
      [| destruct l as [|line lines] eqn:E]
  end.
  - rewrite !Forall_app; repeat split;
      repeat match goal with
             | |- Forall _ (when _ _) => apply specific_when
             | |- Forall _ (match ?x with _ => _ end) => destruct x
             | |- Forall _ [] => constructor
             | |- Forall _ (_ :: _) => constructor; [reflexivity|]
             end.
  - cbn [List.length Nat.eqb].
    destruct (Qle_bool 0.5 relevanceScore) eqn:Er; eexists;
      (split; [reflexivity|]); (split; [simpl; lia|]); right.
    + left. split; [reflexivity|]. now apply Qle_bool_iff.
    + right. split; [reflexivity|]. now apply Qle_bool_false.
  - cbn [List.length Nat.eqb].
    eexists. split; [reflexivity|]. split; [simpl; lia|].
    left. exact Hspecific.
Qed.

Lemma weightsOf_known (profile : string) :
  In profile ["student"; "shopper"; "researcher"; "casual"] ->
  weightsOf profile <> None.
Proof.
  simpl. intros [<- | [<- | [<- | [<- | []]]]]; discriminate.
Qed.







(* ------------------------------------------------------------------ *)
(** ** The sort *)

Section SortBy.

Context {A : Type} (after : A -> A -> bool).

Lemma insertBy_perm (x : A) (l : list A) :
  Permutation (insertBy after x l) (x :: l).
Proof.
  induction l as [|y l IH]; simpl.
  - apply Permutation_refl.
  - destruct (after x y).
    + rewrite IH. apply perm_swap.
    + apply Permutation_refl.
Qed.

Lemma sortBy_perm (l : list A) : Permutation (sortBy after l) l.
Proof.
  induction l as [|x l IH]; simpl.
  - constructor.
  - rewrite insertBy_perm. now constructor.
Qed.

Lemma sortBy_length (l : list A) :
  List.length (sortBy after l) = List.length l.
Proof.
  apply Permutation_length, sortBy_perm.
Qed.

(** A class [keep] of elements none of which is to be placed after
    another one keeps its order of arrival. *)
Variable keep : A -> bool.
Hypothesis keep_unordered :
  forall x y, keep x = true -> keep y = true -> after x y = false.

Lemma insertBy_filter (x : A) (l : list A) :
  filter keep (insertBy after x l) = filter keep (x :: l).
Proof.
  induction l as [|y l IH]; [reflexivity|].
  cbn [insertBy]. destruct (after x y) eqn:E; [|reflexivity].
  cbn [filter] in *. rewrite IH.
  destruct (keep x) eqn:Kx, (keep y) eqn:Ky; try reflexivity.
  rewrite (keep_unordered x y Kx Ky) in E. discriminate.
Qed.

Lemma sortBy_filter (l : list A) :
  filter keep (sortBy after l) = filter keep l.
Proof.
  induction l as [|x l IH]; [reflexivity|].
  cbn [sortBy fold_right]. rewrite insertBy_filter.
  cbn [filter]. fold (sortBy after l). now rewrite IH.
Qed.

End SortBy.

Lemma scoreAfter_true (a b : RankedResult) :
  numericScore a -> numericScore b ->
  scoreAfter a b = true -> scoreGe b a.
Proof.
  unfold numericScore, scoreAfter, scoreGe.
  destruct (score a) as [x|], (score b) as [y|]; simpl; try tauto.
  intros _ _ H. apply negb_true_iff, Qle_bool_false in H. lra.
Qed.

Lemma scoreAfter_false (a b : RankedResult) :
  numericScore a -> numericScore b ->
  scoreAfter a b = false -> scoreGe a b.
Proof.
  unfold numericScore, scoreAfter, scoreGe.
  destruct (score a) as [x|], (score b) as [y|]; simpl; try tauto.
  intros _ _ H. apply negb_false_iff, Qle_bool_iff in H. lra.
Qed.

Lemma scoreGe_trans (a b c : RankedResult) :
  scoreGe a b -> scoreGe b c -> scoreGe a c.
Proof.
  unfold scoreGe.
  destruct (score a), (score b), (score c); try tauto. lra.
Qed.

Lemma scoreIs_unordered (v : Q) (a b : RankedResult) :
  scoreIs v a = true -> scoreIs v b = true -> scoreAfter a b = false.
Proof.
  unfold scoreIs, scoreAfter.
  destruct (score a) as [x|], (score b) as [y|]; simpl; try discriminate.
  intros Ha Hb. apply Qeq_bool_iff in Ha, Hb.
  apply negb_false_iff, Qle_bool_iff. lra.
Qed.

Lemma insertBy_sorted (x : RankedResult) (l : list RankedResult) :
  numericScore x -> Forall numericScore l ->
  StronglySorted scoreGe l ->
  StronglySorted scoreGe (insertBy scoreAfter x l).
Proof.
  intros Hx Hl Hs. induction Hs as [|y l Hs IH Hy]; simpl.
  - repeat constructor.
  - inversion Hl as [|? ? Ny Nl]; subst.
    destruct (scoreAfter x y) eqn:E.
    + constructor; [now apply IH|].
      apply (Permutation_Forall (Permutation_sym (insertBy_perm _ x l))).
      constructor; [now apply scoreAfter_true | exact Hy].
    + pose proof (scoreAfter_false x y Hx Ny E) as Hxy.
      constructor; [now constructor|].
      constructor; [exact Hxy|].
      eapply Forall_impl; [|exact Hy].
      intros z Hz. now apply scoreGe_trans with y.
Qed.

Lemma sortBy_sorted (l : list RankedResult) :
  Forall numericScore l ->
  StronglySorted scoreGe (sortBy scoreAfter l).
Proof.
  induction 1 as [|x l Hx Hl IH]; simpl.
  - constructor.
  - apply insertBy_sorted; [exact Hx| |exact IH].
    apply (Permutation_Forall (Permutation_sym (sortBy_perm _ l))), Hl.
Qed.

Lemma sortBy_stable (v : Q) (l : list RankedResult) :
  filter (scoreIs v) (sortBy scoreAfter l) = filter (scoreIs v) l.
Proof.
  apply sortBy_filter. apply scoreIs_unordered.
Qed.

(* ------------------------------------------------------------------ *)
(** ** The pipeline *)

Lemma mapM_Normal {A B : Type} (f : A -> completion B) (xs : list A)
  (ys : list B) :
  mapM f xs = Normal ys -> Forall2 (fun x y => f x = Normal y) xs ys.
Proof.
  revert ys. induction xs as [|x xs IH]; intros ys; simpl.
  - intros [= <-]. constructor.
  - destruct (f x) as [y|e] eqn:Ef; simpl; [|discriminate].
    destruct (mapM f xs) as [ys'|e]; simpl; [|discriminate].
    intros [= <-]. constructor; [exact Ef | now apply IH].
Qed.

Lemma mapM_total {A B : Type} (f : A -> completion B) (xs : list A) :
  (forall x, In x xs -> exists y, f x = Normal y) ->
  exists ys, mapM f xs = Normal ys.
Proof.
  induction xs as [|x xs IH]; intros H; simpl.
  - now exists [].
  - destruct (H x (or_introl eq_refl)) as [y ->].
    destruct IH as [ys ->]; [intros; apply H; now right|].
    now exists (y :: ys).
Qed.

Lemma filterByQueryIntent_nil (query : string) :
  filterByQueryIntent [] query = [].
Proof.
  unfold filterByQueryIntent. now destruct (_ =? _)%nat.
Qed.

Lemma scoreAndExplain_Normal (request : Request) (result : SearchResult)
  (ranked : RankedResult) :
  Shared.scoreAndExplain Engine.applyConstraintAdjustments
    (requestProfile request) (requestConstraints request)
    (extractKeywords (req_query request)) result = Normal ranked ->
  item ranked = result /\ score ranked = finalScore request result.
Proof.
  unfold Shared.scoreAndExplain. cbv zeta.
  destruct (generateExplanations _ _ _ _ _ _) as [lines|e]; simpl;
    [|discriminate].
  intros [= <-]. split; reflexivity.
Qed.

Lemma scoreAndExplain_total (request : Request) (result : SearchResult) :
  weightsOf (requestProfile request) <> None ->
  exists ranked,
    Shared.scoreAndExplain Engine.applyConstraintAdjustments
      (requestProfile request) (requestConstraints request)
      (extractKeywords (req_query request)) result = Normal ranked.
Proof.
  intros Hw. unfold Shared.scoreAndExplain. cbv zeta.
  destruct (weightsOf (requestProfile request)) as [weights|] eqn:E;
    [|congruence].
  match goal with
  | |- context [generateExplanations ?r ?p ?c ?k ?rel ?pers] =>
      destruct (generateExplanations_with_weights r p c k rel pers weights E)
        as (lines & -> & _)
  end.
  simpl. eauto.
Qed.

(** [rankResults] maps over the survivors and sorts; both early returns
    agree with that. *)
Lemma rankResults_unfold (request : Request) :
  Engine.rankResults request
  = (scoredResults <-
       mapM (Shared.scoreAndExplain Engine.applyConstraintAdjustments
               (requestProfile request) (requestConstraints request)
               (extractKeywords (req_query request)))
         (survivors request) ;;
     Normal (sortBy scoreAfter scoredResults)).
Proof.
  unfold Engine.rankResults, survivors. cbv zeta.
  destruct (requestResults request) as [|r rs] eqn:E.
  - simpl. now rewrite filterByQueryIntent_nil.
  - cbn [List.length Nat.eqb].
    destruct (filterByQueryIntent (r :: rs) (req_query request)); reflexivity.
Qed.

Lemma rankResults_Normal (request : Request) (ranked : list RankedResult) :
  Engine.rankResults request = Normal ranked ->
  exists scored,
    ranked = sortBy scoreAfter scored
    /\ map item scored = survivors request
    /\ Forall (fun r => score r = finalScore request (item r)) scored.
Proof.
  rewrite rankResults_unfold.
  destruct (mapM _ (survivors request)) as [scored|e] eqn:E; simpl;
    [|discriminate].
  intros [= <-]. exists scored. split; [reflexivity|].
  apply mapM_Normal in E.
  induction E as [|x y xs ys Hxy _ [IH1 IH2]]; simpl.
  - split; constructor.
  - apply scoreAndExplain_Normal in Hxy. destruct Hxy as [Hi Hs].
    split; [congruence|]. constructor; [congruence | exact IH2].
Qed.

Lemma rankResults_total (request : Request) :
  weightsOf (requestProfile request) <> None ->
  exists ranked, Engine.rankResults request = Normal ranked.
Proof.
  intros Hw. rewrite rankResults_unfold.
  destruct (mapM_total
              (Shared.scoreAndExplain Engine.applyConstraintAdjustments
                 (requestProfile request) (requestConstraints request)
                 (extractKeywords (req_query request)))
              (survivors request)) as [scored ->].
  - intros x _. now apply scoreAndExplain_total.
  - simpl. eauto.
Qed.

Lemma rankResults_length (request : Request) (ranked : list RankedResult) :
  Engine.rankResults request = Normal ranked ->
  List.length ranked = List.length (survivors request).
Proof.
  intros H. apply rankResults_Normal in H.
  destruct H as (scored & -> & Hitems & _).
  rewrite sortBy_length, <- Hitems. symmetry. apply length_map.
Qed.

(** The browser pipeline hands at most three results to the display. *)
Lemma rankAndDisplayResults_at_most_three (results : list SearchResult)
  (profile : string) (constraints : Constraints) (query : string)
  (shown : list RankedResult) :
  App.rankAndDisplayResults results profile constraints query = Normal shown ->
  (List.length shown <= 3)%nat.
Proof.
  unfold App.rankAndDisplayResults. cbv zeta.
  destruct (_ =? 0)%nat.
  - intros [= <-]. simpl. lia.
  - destruct (mapM _ _) as [scored|e]; cbn [bind]; [|discriminate].
    intros [= <-].
    destruct (sortBy scoreAfter scored) as [|a [|b [|c rest]]]; simpl; lia.
Qed.

(** C1.  With six candidates that survive the intent filter,
    [rankResults] returns six ranked results, not three; the browser
    pipeline, given the same input, shows three. *)
Theorem rankResults_not_truncated :
  List.length (survivors sixRequest) = 6%nat
  /\ (exists ranked,
        Engine.rankResults sixRequest = Normal ranked
        /\ List.length ranked = 6%nat
        /\ ~ (List.length ranked <= 3)%nat)
  /\ (exists shown,
        App.rankAndDisplayResults sixCandidates "student" noConstraints
          "machine learning" = Normal shown
        /\ List.length shown = 3%nat).
Proof.
  assert (Hs : List.length (survivors sixRequest) = 6%nat) by reflexivity.
  split; [exact Hs|]. split.
  - destruct (rankResults_total sixRequest) as [ranked E]; [discriminate|].
    exists ranked. split; [exact E|].
    rewrite (rankResults_length _ _ E), Hs. split; [reflexivity | lia].
  - eexists. split; [vm_compute; reflexivity | reflexivity].
Qed.

(** C2.  Every result [rankResults] returns is one of the survivors of the
    intent filter (and every survivor is returned), and its score is
    [0.7 * relevance + 0.3 * personalization], both computed from that
    candidate, the keywords of the query, the profile and the constraints
    of the request; [scoreResult] computes the same value.  For a profile
    that has a weight object the call does return. *)
Theorem rankResults_final_score :
  forall request : Request,
    let queryKeywords := extractKeywords (req_query request) in
    let profile := requestProfile request in
    let constraints := requestConstraints request in
    let weighted (result : SearchResult) : JS.num :=
      (JS.Num 0.7 * JS.Num (computeRelevanceScore result queryKeywords)
       + JS.Num 0.3
         * Engine.computePersonalizationScore result profile constraints)%js in
    (forall ranked,
        Engine.rankResults request = Normal ranked ->
        Permutation (map item ranked)
          (filterByQueryIntent (requestResults request) (req_query request))
        /\ Forall (fun r => score r = weighted (item r)) ranked)
    /\ (weightsOf profile <> None ->
        exists ranked, Engine.rankResults request = Normal ranked)
    /\ (forall result,
          Engine.scoreResult result profile (Some queryKeywords)
            (Some (req_query request)) (Some constraints)
          = weighted result).
Proof.
  intros request queryKeywords profile constraints weighted.
  split; [|split].
  - intros ranked H. apply rankResults_Normal in H.
    destruct H as (scored & -> & Hitems & Hscores).
    split.
    + fold (survivors request). rewrite <- Hitems.
      apply Permutation_map, sortBy_perm.
    + apply (Permutation_Forall (Permutation_sym (sortBy_perm _ scored))).
      exact Hscores.
  - apply rankResults_total.
  - reflexivity.
Qed.

Lemma rankResults_final_score_witness :
  exists ranked,
    Engine.rankResults twoRequest = Normal ranked
    /\ Forall
         (fun r =>
            score r
            = (JS.Num 0.7
                 * JS.Num (computeRelevanceScore (item r)
                             ["machine"; "learning"])
               + JS.Num 0.3
                 * Engine.computePersonalizationScore (item r) "student"
                     (withReadingTime 30))%js)
         ranked.
Proof.
  destruct (rankResults_final_score twoRequest) as (Hscore & Htotal & _).
  destruct Htotal as [ranked E]; [discriminate|].
  exists ranked. split; [exact E|].
  exact (proj2 (Hscore ranked E)).
Defined.

Lemma finalScore_numeric (request : Request) (result : SearchResult) :
  hasAdjusterMetrics result -> JS.isNum (finalScore request result).
Proof.
  intros H. unfold finalScore.
  pose proof (computePersonalizationScore_range result
                (requestProfile request) (requestConstraints request) H) as Hp.
  destruct (Engine.computePersonalizationScore _ _ _); [exact I | destruct Hp].
Qed.

Lemma scoreAfter_numbers (a b : RankedResult) (x y : Q) :
  score a =js= JS.Num x -> score b =js= JS.Num y ->
  scoreAfter a b = negb (Qle_bool y x).
Proof.
  unfold scoreAfter.
  destruct (score a) as [x'|], (score b) as [y'|]; simpl; try tauto.
  intros Hx Hy. f_equal.
  destruct (Qle_bool y x) eqn:E.
  - apply Qle_bool_iff in E. apply Qle_bool_iff. lra.
  - apply Qle_bool_false in E.
    destruct (Qle_bool (y' - x') 0) eqn:E'; [|reflexivity].
    apply Qle_bool_iff in E'. lra.
Qed.

(** The order of the ranking where every final score is a number, as it
    is when the candidates carry the metrics the adjuster reads: the list
    [rankResults] returns holds the scored survivors of the intent filter
    in descending order of final score, and results of equal final score
    keep the order they have in the filtered list.  Three results whose
    final scores are 0.9, 0.4 and 0.7 in input order come out as 0.9,
    0.7, 0.4. *)
Theorem rankResults_sorted_stable :
  (forall (request : Request) (ranked : list RankedResult),
      Engine.rankResults request = Normal ranked ->
      Forall numericScore ranked
      \/ Forall hasAdjusterMetrics (requestResults request) ->
      StronglySorted scoreGe ranked
      /\ exists scored,
           map item scored
           = filterByQueryIntent (requestResults request)
               (req_query request)
           /\ Permutation ranked scored
           /\ forall v,
                filter (scoreIs v) ranked = filter (scoreIs v) scored)
  /\ (forall request : Request,
        weightsOf (requestProfile request) <> None ->
        exists ranked, Engine.rankResults request = Normal ranked)
  /\ (forall a b c : RankedResult,
        score a =js= JS.Num 0.9 ->
        score b =js= JS.Num 0.4 ->
        score c =js= JS.Num 0.7 ->
        sortBy scoreAfter [a; b; c] = [a; c; b]).
Proof.
  split; [|split].
  - intros request ranked H Hnum. apply rankResults_Normal in H.
    destruct H as (scored & -> & Hitems & Hscores).
    assert (Hsorted : Forall numericScore scored ->
                      StronglySorted scoreGe (sortBy scoreAfter scored))
      by apply sortBy_sorted.
    split.
    + apply Hsorted. destruct Hnum as [Hnum | Hmetrics].
      * apply (Permutation_Forall (sortBy_perm scoreAfter scored)), Hnum.
      * assert (Hsurv : Forall hasAdjusterMetrics (map item scored)).
        { rewrite Hitems. unfold survivors, filterByQueryIntent.
          destruct (_ =? 0)%nat; [exact Hmetrics|].
          apply Forall_forall. intros x Hx. apply filter_In in Hx.
          rewrite Forall_forall in Hmetrics. now apply Hmetrics. }
        rewrite Forall_map in Hsurv.
        rewrite Forall_forall in *. intros r Hr.
        unfold numericScore. rewrite (Hscores r Hr).
        apply finalScore_numeric, Hsurv, Hr.
    + exists scored. split; [exact Hitems|].
      split; [apply sortBy_perm|]. intros v. apply sortBy_stable.
  - apply rankResults_total.
  - intros a b c Ha Hb Hc.
    assert (Ebc : scoreAfter b c = true)
      by (rewrite (scoreAfter_numbers b c 0.4 0.7 Hb Hc); reflexivity).
    assert (Eac : scoreAfter a c = false)
      by (rewrite (scoreAfter_numbers a c 0.9 0.7 Ha Hc); reflexivity).
    cbn [sortBy fold_right insertBy]. rewrite Ebc.
    cbn [insertBy]. now rewrite Eac.
Qed.

Lemma rankResults_sorted_stable_witness :
  exists a b c,
    Engine.rankResults threeRequest = Normal [a; c; b]
    /\ map (fun r => id (item r)) [a; b; c] = [1; 2; 3]%Z
    /\ StronglySorted scoreGe [a; c; b]
    /\ sortBy scoreAfter [a; b; c] = [a; c; b].
Proof.
  destruct rankResults_sorted_stable as (Hgeneral & Htotal & Hthree).
  destruct (Htotal threeRequest) as [ranked E]; [discriminate|].
  assert (Hmetrics : Forall hasAdjusterMetrics (requestResults threeRequest))
    by (repeat constructor; discriminate).
  destruct (Hgeneral threeRequest ranked E (or_intror Hmetrics))
    as (Hsorted & _).
  pose proof E as E'. vm_compute in E'. injection E' as <-.
  eexists _, _, _. split; [exact E|].
  split; [reflexivity|]. split; [exact Hsorted|].
  apply Hthree; vm_compute; reflexivity.
Defined.

(** A list of two or more results in descending order of score holds
    numeric scores only. *)
Lemma descending_numeric (l : list RankedResult) :
  StronglySorted scoreGe l -> (2 <= List.length l)%nat ->
  Forall numericScore l.
Proof.
  intros Hs Hlen.
  destruct l as [|a [|b rest]]; simpl in Hlen; try lia.
  inversion Hs as [|? ? _ Ha]; subst.
  assert (Hb : scoreGe a b) by (inversion Ha; assumption).
  constructor.
  - unfold scoreGe in Hb. unfold numericScore.
    destruct (score a); [exact I | destruct Hb].
  - apply (Forall_impl numericScore (P := scoreGe a)); [|exact Ha].
    intros r Hr. unfold scoreGe in Hr. unfold numericScore.
    destruct (score a); [|destruct Hr].
    destruct (score r); [exact I | destruct Hr].
Qed.

(** C6, at a failing input.  The three candidates of [mixedRequest] pass
    the intent filter; the second lacks [simplicity], so under the
    reading-time ceiling its final score is [NaN].  [rankResults] returns
    the three in input order, the result with the lower score before the
    one with the higher: every comparison of neighbours involves the
    [NaN] score, answers [NaN] and moves nothing.  The list is not in
    descending order of final score, and neither is any other
    arrangement of the three results. *)
Theorem rankResults_not_descending :
  exists first second third : RankedResult,
    Engine.rankResults mixedRequest = Normal [first; second; third]
    /\ map (fun r => id (item r)) [first; second; third] = [1; 2; 3]%Z
    /\ scoreAfter second first = false
    /\ scoreAfter third second = false
    /\ (exists low high : Q,
          score first = JS.Num low
          /\ score second = JS.NaN
          /\ score third = JS.Num high
          /\ low < high)
    /\ forall arranged : list RankedResult,
         Permutation arranged [first; second; third] ->
         ~ StronglySorted scoreGe arranged.
Proof.
  eexists _, _, _. split; [vm_compute; reflexivity|].
  split; [reflexivity|].
  split; [reflexivity|]. split; [reflexivity|].
  split.
  - eexists _, _. split; [reflexivity|]. split; [reflexivity|].
    split; [reflexivity|]. vm_compute. reflexivity.
  - intros arranged Hp Hs.
    apply descending_numeric in Hs;
      [|rewrite (Permutation_length Hp); simpl; lia].
    rewrite Forall_forall in Hs.
    refine (Hs _ (Permutation_in _ (Permutation_sym Hp)
                    (or_intror (or_introl eq_refl)))).
Qed.

(* ================================================================== *)
(** * Further properties of the code *)

(** ** Keywords *)

Lemma lowerChar_idempotent (c : ascii) :
  Str.lowerChar (Str.lowerChar c) = Str.lowerChar c.
Proof.
  destruct c as [[] [] [] [] [] [] [] []]; reflexivity.
Qed.

Lemma toLowerCase_idempotent (s : string) :
  Str.toLowerCase (Str.toLowerCase s) = Str.toLowerCase s.
Proof.
  induction s as [|c s IH]; simpl; [reflexivity|].
  now rewrite lowerChar_idempotent, IH.
Qed.

Lemma splitFrom_no_space (s : string) :
  forall inGap,
    Forall (fun piece => allChars (fun c => negb (Str.isSpace c)) piece = true)
      (Str.splitFrom inGap s).
Proof.
  induction s as [|c s IH]; intros inGap; simpl.
  - repeat constructor.
  - destruct (Str.isSpace c) eqn:E.
    + destruct inGap; [apply IH|].
      constructor; [reflexivity | apply IH].
    + specialize (IH false).
      destruct (Str.splitFrom false s) as [|piece pieces].
      * repeat constructor. simpl. now rewrite E.
      * inversion IH as [|? ? Hp Hps]; subst.
        constructor; [|exact Hps]. simpl. now rewrite E, Hp.
Qed.

Lemma Forall_firstn {A : Type} (P : A -> Prop) (n : nat) (l : list A) :
  Forall P l -> Forall P (firstn n l).
Proof.
  intros H. revert n. induction H as [|x l Hx _ IH]; intros [|n]; simpl;
    constructor; auto.
Qed.

(** X1.  [extractKeywords] returns at most five keywords; each has more
    than three characters, is in lower case and contains no white
    space. *)
Theorem extractKeywords_shape :
  forall query : string,
    (List.length (extractKeywords query) <= 5)%nat
    /\ Forall
         (fun keyword =>
            (3 < String.length keyword)%nat
            /\ Str.toLowerCase keyword = keyword
            /\ allChars (fun c => negb (Str.isSpace c)) keyword = true)
         (extractKeywords query).
Proof.
  intros query. unfold extractKeywords. split.
  - apply firstn_le_length.
  - apply Forall_firstn.
    apply Forall_forall. intros keyword Hin.
    apply filter_In in Hin. destruct Hin as [Hin Hlen].
    split; [now apply Nat.ltb_lt|].
    unfold Str.splitWhitespace in Hin. split.
    + rewrite splitFrom_toLowerCase in Hin.
      apply in_map_iff in Hin. destruct Hin as (piece & <- & _).
      apply toLowerCase_idempotent.
    + pose proof (splitFrom_no_space (Str.toLowerCase query) false) as H.
      rewrite Forall_forall in H. now apply H.
Qed.

(* ------------------------------------------------------------------ *)
(** ** The intent filter, candidate by candidate *)

Lemma filterByQueryIntent_as_filter (results : list SearchResult)
  (query : string) :
  filterByQueryIntent results query
  = filter (fun result =>
              (List.length (extractKeywords query) =? 0)%nat
              || admits (extractKeywords query) result)
      results.
Proof.
  unfold filterByQueryIntent.
  destruct (List.length (extractKeywords query) =? 0)%nat; simpl.
  - induction results as [|r rs IH]; simpl; congruence.
  - reflexivity.
Qed.

Lemma filter_idempotent {A : Type} (p : A -> bool) (l : list A) :
  filter p (filter p l) = filter p l.
Proof.
  induction l as [|x l IH]; simpl; [reflexivity|].
  destruct (p x) eqn:E; simpl; [rewrite E|]; congruence.
Qed.

Lemma filter_length_le {A : Type} (p : A -> bool) (l : list A) :
  (List.length (filter p l) <= List.length l)%nat.
Proof.
  induction l as [|x l IH]; simpl; [lia|].
  destruct (p x); simpl; lia.
Qed.

(** X2.  The intent filter judges every candidate on its own: it
    distributes over concatenation of candidate lists (so it never
    reorders, duplicates or invents a candidate), it returns no more
    candidates than it was given, and filtering its result again with the
    same query changes nothing. *)
Theorem filterByQueryIntent_pointwise :
  forall (first second : list SearchResult) (query : string),
    filterByQueryIntent (first ++ second) query
    = filterByQueryIntent first query ++ filterByQueryIntent second query
    /\ (List.length (filterByQueryIntent first query)
        <= List.length first)%nat
    /\ incl (filterByQueryIntent first query) first
    /\ filterByQueryIntent (filterByQueryIntent first query) query
       = filterByQueryIntent first query.
Proof.
  intros first second query.
  rewrite !filterByQueryIntent_as_filter.
  split; [apply filter_app|].
  split; [apply filter_length_le|].
  split; [apply incl_filter|].
  apply filter_idempotent.
Qed.

(* ------------------------------------------------------------------ *)
(** ** Relevance *)

Lemma orElse_zero (o : option Q) :
  JS.orElse o 0 == match o with Some q => q | None => 0 end.
Proof.
  destruct o as [q|]; simpl; [|reflexivity].
  destruct (Qeq_bool q 0) eqn:E; [|reflexivity].
  apply Qeq_bool_iff in E. now rewrite E.
Qed.

Lemma Qclamp_compat (x y : Q) :
  x == y -> Qmax 0 (Qmin 1 x) == Qmax 0 (Qmin 1 y).
Proof.
  intros H. apply Q.max_compat; [reflexivity|].
  apply Q.min_compat; [reflexivity | exact H].
Qed.

Lemma Qclamp_mono (x y : Q) :
  x <= y -> Qmax 0 (Qmin 1 x) <= Qmax 0 (Qmin 1 y).
Proof.
  intros H. apply Q.max_le_compat_l, Q.min_le_compat_l, H.
Qed.

Ltac relevance_cases result queryKeywords :=
  unfold computeRelevanceScore, activeCategory, withRelevance;
  cbn [category tags relevance];
  destruct (category result) as [c|];
  [destruct (String.eqb c "")|];
  destruct (0 <? List.length queryKeywords)%nat;
  destruct (tags result) as [ts|];
  try destruct (matchesAnyKeyword queryKeywords c);
  cbv beta iota zeta;
  repeat match goal with
         | |- context [negb (Qle_bool ?f 0)] =>
             replace (negb (Qle_bool f 0)) with true by reflexivity
         end.

(** X3.  For fixed keywords the relevance score never decreases when the
    stored relevance of the candidate increases. *)
Theorem computeRelevanceScore_monotone :
  forall (result : SearchResult) (queryKeywords : list string)
         (low high : Q),
    low <= high ->
    computeRelevanceScore (withRelevance result (Some low)) queryKeywords
    <= computeRelevanceScore (withRelevance result (Some high))
         queryKeywords.
Proof.
  intros result queryKeywords low high H.
  pose proof (orElse_zero (Some low)) as El.
  pose proof (orElse_zero (Some high)) as Eh.
  cbv beta iota in El, Eh.
  relevance_cases result queryKeywords;
    apply Qclamp_mono; unfold Qdiv;
    (apply Qmult_le_compat_r; [lra | vm_compute; discriminate]).
Qed.

Lemma computeRelevanceScore_monotone_witness :
  computeRelevanceScore (withRelevance mlGuide (Some 0.2))
    ["machine"; "learning"]
  <= computeRelevanceScore (withRelevance mlGuide (Some 0.9))
       ["machine"; "learning"].
Proof.
  apply (computeRelevanceScore_monotone mlGuide ["machine"; "learning"]
           0.2 0.9).
  discriminate.
Defined.

(** X4.  Without keywords, and likewise for a candidate that has neither
    a category nor tags, the relevance score is the stored relevance
    (0 when missing) clamped to [0, 1]. *)
Theorem computeRelevanceScore_plain :
  forall (result : SearchResult) (queryKeywords : list string),
    queryKeywords = []
    \/ (activeCategory result = None /\ tags result = None) ->
    computeRelevanceScore result queryKeywords
    == Qmax 0 (Qmin 1 (JS.orElse (relevance result) 0)).
Proof.
  intros result queryKeywords H.
  assert (E : forall x : Q, x * 0.6 / 0.6 == x) by (intros; field).
  unfold computeRelevanceScore.
  destruct H as [-> | [Hc Ht]].
  - cbn [List.length Nat.ltb Nat.leb].
    destruct (activeCategory result), (tags result);
      cbv beta iota zeta;
      replace (negb (Qle_bool 0.6 0)) with true by reflexivity;
      apply Qclamp_compat, E.
  - rewrite Hc, Ht. cbv beta iota zeta.
    replace (negb (Qle_bool 0.6 0)) with true by reflexivity.
    apply Qclamp_compat, E.
Qed.

Lemma computeRelevanceScore_plain_witness :
  computeRelevanceScore mlGuide [] == 0.95
  /\ computeRelevanceScore bare ["machine"; "learning"] == 0.4.
Proof.
  split.
  - rewrite (computeRelevanceScore_plain mlGuide []); [reflexivity|].
    left. reflexivity.
  - rewrite (computeRelevanceScore_plain bare ["machine"; "learning"]);
      [reflexivity|].
    right. split; reflexivity.
Defined.

(* ------------------------------------------------------------------ *)
(** ** Constraint adjustments *)

(** X5.  When no constraint is active, both implementations of the
    adjuster return 0 for every candidate, also for one with missing
    metrics; the personalization score is then the same in both files and
    it and the final score are numbers in [0, 1]. *)
Theorem no_active_constraint_neutral :
  forall (result : SearchResult) (profile : string)
         (constraints : Constraints) (queryKeywords : list string),
    inactive constraints ->
    Engine.applyConstraintAdjustments result constraints = JS.Num 0
    /\ App.applyConstraintAdjustments result constraints = JS.Num 0
    /\ appPersonalizationScore result profile constraints
       = Engine.computePersonalizationScore result profile constraints
    /\ JS.within 0 1
         (Engine.computePersonalizationScore result profile constraints)
    /\ JS.within 0 1
         (Shared.combine (computeRelevanceScore result queryKeywords)
            (Engine.computePersonalizationScore result profile constraints)).
Proof.
  intros result profile constraints queryKeywords (Hb & Hr & Hs).
  assert (He : Engine.applyConstraintAdjustments result constraints
               = JS.Num 0).
  { unfold Engine.applyConstraintAdjustments. now rewrite Hb, Hr, Hs. }
  assert (Ha : App.applyConstraintAdjustments result constraints = JS.Num 0).
  { unfold App.applyConstraintAdjustments. now rewrite Hb, Hr, Hs. }
  assert (Hp : JS.within 0 1
                 (Engine.computePersonalizationScore result profile
                    constraints)).
  { pose proof (computePersonalizationScore_range_or_NaN
                  result profile constraints) as H.
    destruct (Engine.computePersonalizationScore result profile constraints).
    - exact H.
    - rewrite He in H. discriminate H. }
  split; [exact He|]. split; [exact Ha|]. split; [|split; [exact Hp|]].
  - unfold appPersonalizationScore, Engine.computePersonalizationScore,
      Shared.computePersonalizationScore, Shared.personalizationFor.
    now rewrite He, Ha.
  - apply combine_range; [apply computeRelevanceScore_range | exact Hp].
Qed.

Lemma no_active_constraint_neutral_witness :
  Engine.applyConstraintAdjustments sparse falsyConstraints = JS.Num 0
  /\ App.applyConstraintAdjustments sparse falsyConstraints = JS.Num 0
  /\ JS.within 0 1
       (Engine.computePersonalizationScore sparse "student" falsyConstraints).
Proof.
  destruct (no_active_constraint_neutral sparse "student" falsyConstraints [])
    as (He & Ha & _ & Hp & _).
  - repeat split.
  - split; [exact He | split; [exact Ha | exact Hp]].
Defined.

Lemma Qclamp_inside (lo hi x : Q) :
  lo <= x -> x <= hi -> Qmax lo (Qmin hi x) == x.
Proof.
  intros H1 H2. rewrite (Q.min_r hi x H2). now apply Q.max_r.
Qed.

(** X6.  With the budget flag as the only active constraint and a price
    score [p] in [0, 1], the server module subtracts [0.2 * (1 - p)] (a
    penalty, never a bonus) while the browser script adds [0.06 * p] (a
    bonus, never a penalty). *)
Theorem budget_only_adjustment :
  forall (result : SearchResult) (constraints : Constraints) (p : Q),
    budget constraints = true ->
    activeReadingTime constraints = None ->
    activeSkillLevel constraints = None ->
    price result = Some p ->
    0 <= p -> p <= 1 ->
    Engine.applyConstraintAdjustments result constraints
    =js= JS.Num (- (0.2 * (1 - p)))
    /\ JS.within (-0.2) 0
         (Engine.applyConstraintAdjustments result constraints)
    /\ App.applyConstraintAdjustments result constraints
       =js= JS.Num (0.06 * p)
    /\ JS.within 0 0.06 (App.applyConstraintAdjustments result constraints).
Proof.
  intros result constraints p Hb Hr Hs Hp H0 H1.
  unfold Engine.applyConstraintAdjustments, App.applyConstraintAdjustments.
  rewrite Hb, Hr, Hs, Hp. js_simpl.
  pose proof (orElse_zero (Some p)) as E. cbv beta iota in E.
  rewrite !Qclamp_inside by lra.
  repeat split; lra.
Qed.

Lemma budget_only_adjustment_witness :
  Engine.applyConstraintAdjustments mlGuide withBudget
  =js= JS.Num (- (0.2 * (1 - 0.3)))
  /\ App.applyConstraintAdjustments mlGuide withBudget
     =js= JS.Num (0.06 * 0.3).
Proof.
  destruct (budget_only_adjustment mlGuide withBudget 0.3)
    as (He & _ & Ha & _); try reflexivity; try discriminate.
  split; [exact He | exact Ha].
Defined.

Lemma unknown_skill_same :
  forall (result : SearchResult) (constraints : Constraints)
         (level : string),
    skillLevel constraints = Some level ->
    ~ In level knownSkillLevels ->
    Engine.applyConstraintAdjustments result constraints
    = Engine.applyConstraintAdjustments result (withoutSkill constraints)
    /\ App.applyConstraintAdjustments result constraints
       = App.applyConstraintAdjustments result (withoutSkill constraints)
    /\ forall profile queryKeywords relevanceScore personalizationScore,
         generateExplanations result profile constraints queryKeywords
           relevanceScore personalizationScore
         = generateExplanations result profile (withoutSkill constraints)
             queryKeywords relevanceScore personalizationScore.
Proof.
  intros result constraints level Hl Hn.
  assert (Hb : String.eqb level "beginner" = false)
    by (apply String.eqb_neq; intros ->; apply Hn; simpl; tauto).
  assert (Hi : String.eqb level "intermediate" = false)
    by (apply String.eqb_neq; intros ->; apply Hn; simpl; tauto).
  assert (Ha : String.eqb level "advanced" = false)
    by (apply String.eqb_neq; intros ->; apply Hn; simpl; tauto).
  unfold Engine.applyConstraintAdjustments, App.applyConstraintAdjustments,
    generateExplanations, activeSkillLevel, activeReadingTime, withoutSkill.
  cbn [budget maxReadingTime skillLevel]. rewrite Hl.
  destruct (String.eqb level ""); [repeat split|].
  rewrite Hb, Hi, Ha. repeat split.
Qed.

(** X7.  A skill level other than beginner, intermediate and advanced is
    ignored: the adjustment of either implementation and the explanations
    are those of the same constraints without a skill level. *)
Theorem unknown_skill_level_ignored :
  forall (result : SearchResult) (constraints : Constraints)
         (level : string),
    skillLevel constraints = Some level ->
    ~ In level knownSkillLevels ->
    Engine.applyConstraintAdjustments result constraints
    = Engine.applyConstraintAdjustments result (withoutSkill constraints)
    /\ App.applyConstraintAdjustments result constraints
       = App.applyConstraintAdjustments result (withoutSkill constraints)
    /\ forall profile queryKeywords relevanceScore personalizationScore,
         generateExplanations result profile constraints queryKeywords
           relevanceScore personalizationScore
         = generateExplanations result profile (withoutSkill constraints)
             queryKeywords relevanceScore personalizationScore.
Proof.
  exact unknown_skill_same.
Qed.

Lemma unknown_skill_level_ignored_witness :
  Engine.applyConstraintAdjustments mlGuide expertConstraints
  = Engine.applyConstraintAdjustments mlGuide (withoutSkill expertConstraints)
  /\ App.applyConstraintAdjustments mlGuide expertConstraints
     = App.applyConstraintAdjustments mlGuide (withoutSkill expertConstraints).
Proof.
  destruct (unknown_skill_level_ignored mlGuide expertConstraints "expert")
    as (He & Ha & _).
  - reflexivity.
  - simpl. intros [H | [H | [H | []]]]; discriminate H.
  - split; [exact He | exact Ha].
Defined.

Lemma appConstraintAdjustments_isNum (result : SearchResult)
  (constraints : Constraints) :
  hasAppAdjusterMetrics result ->
  JS.isNum (App.applyConstraintAdjustments result constraints).
Proof.
  intros ((Hs & Hd & Hc) & Hp). unfold App.applyConstraintAdjustments.
  destruct (simplicity result) as [s|]; [|congruence].
  destruct (depth result) as [d|]; [|congruence].
  destruct (citations result) as [c|]; [|congruence].
  destruct (price result) as [p|]; [|congruence].
  apply isNum_clamp.
  split_branches; js_simpl; exact I.
Qed.

Lemma appConstraintAdjustments_range_or_NaN (result : SearchResult)
  (constraints : Constraints) :
  match App.applyConstraintAdjustments result constraints with
  | JS.Num x => -0.15 <= x /\ x <= 0.15
  | JS.NaN => True
  end.
Proof.
  unfold App.applyConstraintAdjustments.
  match goal with
  | |- match JS.max (JS.Num ?lo) (JS.min _ ?a) with _ => _ end =>
      pose proof (clamp_range_or_NaN lo 0.15 a) as H; cbv zeta;
      destruct (JS.max (JS.Num lo) (JS.min (JS.Num 0.15) a))
  end.
  - apply H. discriminate.
  - exact I.
Qed.

(** X8.  For a candidate that carries price, simplicity, depth and
    citations, the adjustment of the browser script lies in
    [-0.15, 0.15], whatever the constraints. *)
Theorem appConstraintAdjustments_bounded :
  forall (result : SearchResult) (constraints : Constraints),
    hasAppAdjusterMetrics result ->
    JS.within (-0.15) 0.15
      (App.applyConstraintAdjustments result constraints).
Proof.
  intros result constraints H.
  pose proof (appConstraintAdjustments_isNum result constraints H) as HN.
  pose proof (appConstraintAdjustments_range_or_NaN result constraints) as HR.
  destruct (App.applyConstraintAdjustments result constraints);
    simpl in *; tauto.
Qed.

Lemma appConstraintAdjustments_bounded_witness :
  JS.within (-0.15) 0.15
    (App.applyConstraintAdjustments mlGuide expertConstraints).
Proof.
  apply (appConstraintAdjustments_bounded mlGuide expertConstraints).
  repeat split; discriminate.
Defined.

Lemma clamp_NaN_iff (lo hi : Q) (a : JS.num) :
  JS.max (JS.Num lo) (JS.min (JS.Num hi) a) = JS.NaN <-> a = JS.NaN.
Proof.
  destruct a; simpl; split; intros H; congruence.
Qed.

(** X9.  The adjustment of the server module is [NaN] exactly when an
    active constraint reads a metric the candidate lacks: [simplicity]
    under a reading-time ceiling, [simplicity] or [depth] for a beginner,
    [depth] or [citations] for an advanced reader.  The budget flag and
    the intermediate level never produce [NaN]. *)
Theorem applyConstraintAdjustments_NaN_iff :
  forall (result : SearchResult) (constraints : Constraints),
    Engine.applyConstraintAdjustments result constraints = JS.NaN
    <-> (activeReadingTime constraints <> None
         /\ simplicity result = None)
        \/ (activeSkillLevel constraints = Some "beginner"
            /\ (simplicity result = None \/ depth result = None))
        \/ (activeSkillLevel constraints = Some "advanced"
            /\ (depth result = None \/ citations result = None)).
Proof.
  intros result constraints.
  unfold Engine.applyConstraintAdjustments. cbv zeta.
  rewrite clamp_NaN_iff.
  destruct (simplicity result) as [s|], (depth result) as [d|],
    (citations result) as [c|], (budget constraints),
    (activeReadingTime constraints) as [limit|],
    (activeSkillLevel constraints) as [level|];
    try (destruct (String.eqb_spec level "beginner") as [->|Nb];
         [|destruct (String.eqb_spec level "intermediate") as [->|Ni];
           [|destruct (String.eqb_spec level "advanced") as [->|Na]]]);
    cbn [String.eqb Ascii.eqb Bool.eqb JS.propGt];
    split_branches; js_simpl;
    (split; [intros H; try discriminate H | intros H]);
    try reflexivity;
    intuition (try congruence; try discriminate).
Qed.

(* ------------------------------------------------------------------ *)
(** ** What the explanations say *)

Lemma propGt_true (o : option Q) (c : Q) :
  JS.propGt o c = true -> exists q, o = Some q /\ c < q.
Proof.
  destruct o as [q|]; simpl; [|discriminate].
  intros H. exists q. split; [reflexivity|].
  apply negb_true_iff in H. now apply Qle_bool_false.
Qed.

Lemma in_when {A : Type} (b : bool) (l : list A) (x : A) :
  In x (when b l) -> b = true /\ In x l.
Proof.
  destruct b; simpl; tauto.
Qed.

Ltac in_lines H :=
  repeat match type of H with
         | In _ (_ ++ _) => apply in_app_or in H; destruct H as [H | H]
         | In _ (when _ _) => apply in_when in H; destruct H as [? H]
         | In _ (match ?x with _ => _ end) => destruct x eqn:?
         | In _ [] => destruct H
         | In _ (_ :: _) => destruct H as [H | H]; [try discriminate H|]
         end.

Ltac line_facts :=
  repeat match goal with
         | E : _ && _ = true |- _ => apply andb_true_iff in E; destruct E
         | E : String.eqb _ _ = true |- _ => apply String.eqb_eq in E; subst
         | E : JS.propGt _ _ = true |- _ => apply propGt_true in E
         | E : Qle_bool _ _ = true |- _ => apply Qle_bool_iff in E
         end.

(** X10.  The explanations state a constraint only where it is met: the
    reading-time line appears only under an active ceiling that the
    candidate's reading time respects, the budget line only under the
    budget flag for a price score above 0.6, and a skill line only for
    the level asked, with simplicity above 0.6 (beginner) or depth above
    0.4 (intermediate) or 0.6 (advanced). *)
Theorem generateExplanations_only_met_constraints :
  forall (result : SearchResult) (profile : string)
         (constraints : Constraints) (queryKeywords : list string)
         (relevanceScore : Q) (personalizationScore : JS.num)
         (lines : list Explanation),
    generateExplanations result profile constraints queryKeywords
      relevanceScore personalizationScore = Normal lines ->
    (forall maxTime minutes,
        In (FitsReadingTime maxTime minutes) lines ->
        activeReadingTime constraints = Some maxTime
        /\ readingTime result = Some minutes
        /\ minutes <= inject_Z maxTime)
    /\ (In RespectsBudget lines ->
        budget constraints = true
        /\ exists p, price result = Some p /\ 0.6 < p)
    /\ (In BeginnerLevel lines ->
        activeSkillLevel constraints = Some "beginner"
        /\ exists s, simplicity result = Some s /\ 0.6 < s)
    /\ (In IntermediateDepth lines ->
        activeSkillLevel constraints = Some "intermediate"
        /\ exists d, depth result = Some d /\ 0.4 < d)
    /\ (In AdvancedDepth lines ->
        activeSkillLevel constraints = Some "advanced"
        /\ exists d, depth result = Some d /\ 0.6 < d).
Proof.
  intros result profile constraints queryKeywords relevanceScore
    personalizationScore lines.
  unfold generateExplanations.
  destruct (weightsOf profile) as [weights|]; [|discriminate].
  cbv zeta.
  match goal with
  | |- Normal (if (List.length ?l =? 0)%nat then _ else _) = _ -> _ =>
      destruct (List.length l =? 0)%nat
  end.
  - destruct (Qle_bool 0.5 relevanceScore); intros [= <-];
      repeat split; intros; in_lines H.
  - intros [= <-].
    split; [|split; [|split; [|split]]].
    + intros maxTime minutes H. in_lines H.
      injection H as ? ?; subst. line_facts. repeat split; eauto.
    + intros H. in_lines H. line_facts. repeat split; eauto.
    + intros H. in_lines H; line_facts; repeat split; eauto.
    + intros H. in_lines H; line_facts; repeat split; eauto.
    + intros H. in_lines H; line_facts; repeat split; eauto.
Qed.

Lemma generateExplanations_only_met_constraints_witness :
  activeReadingTime beginnerConstraints = Some 30%Z
  /\ readingTime mlGuide = Some 20
  /\ 20 <= inject_Z 30.
Proof.
  destruct (generateExplanations mlGuide "student" beginnerConstraints
              ["machine"; "learning"] 0.645 (JS.Num 0.7))
    as [lines|e] eqn:E; [|vm_compute in E; discriminate E].
  destruct (generateExplanations_only_met_constraints mlGuide "student"
              beginnerConstraints ["machine"; "learning"] 0.645 (JS.Num 0.7)
              lines E) as (Hfit & _).
  apply Hfit. vm_compute in E. injection E as <-. simpl. tauto.
Defined.

Lemma in_seven_parts {A : Type} (x : A) (a b c d e f g : list A) :
  In x (a ++ b ++ c ++ d ++ e ++ f ++ g) ->
  In x a \/ In x b \/ In x c \/ In x d \/ In x e \/ In x f \/ In x g.
Proof.
  rewrite !in_app_iff. tauto.
Qed.

(** X11.  The explanation list never has more than seven lines, and it
    contains the line "Highly relevant to your search" exactly when the
    relevance score is at least 0.6, with the score rounded to a
    percentage. *)
Theorem generateExplanations_bounded_relevance_line :
  forall (result : SearchResult) (profile : string)
         (constraints : Constraints) (queryKeywords : list string)
         (relevanceScore : Q) (personalizationScore : JS.num)
         (lines : list Explanation),
    generateExplanations result profile constraints queryKeywords
      relevanceScore personalizationScore = Normal lines ->
    (List.length lines <= 7)%nat
    /\ (0.6 <= relevanceScore
        <-> In (HighlyRelevant (JS.round (relevanceScore * 100))) lines)
    /\ (forall percent, In (HighlyRelevant percent) lines ->
        percent = JS.round (relevanceScore * 100)).
Proof.
  intros result profile constraints queryKeywords relevanceScore
    personalizationScore lines.
  unfold generateExplanations.
  destruct (weightsOf profile) as [weights|]; [|discriminate].
  cbv zeta.
  match goal with
  | |- Normal (if (List.length (?a ++ ?b ++ ?r ++ ?t ++ ?bu ++ ?sk ++ ?pr)
                   =? 0)%nat then _ else _) = _ -> _ =>
      assert (La : (List.length a <= 1)%nat)
        by (unfold when; split_branches; simpl; lia);
      assert (Lb : (List.length b <= 1)%nat)
        by (unfold when; split_branches; simpl; lia);
      assert (Lt : (List.length t <= 1)%nat)
        by (unfold when; split_branches; simpl; lia);
      assert (Lbu : (List.length bu <= 1)%nat)
        by (unfold when; split_branches; simpl; lia);
      assert (Lsk : (List.length sk <= 1)%nat)
        by (split_branches; simpl; lia);
      assert (Lpr : (List.length pr <= 1)%nat)
        by (unfold when; split_branches; simpl; lia);
      assert (Na : forall p, ~ In (HighlyRelevant p) a)
        by (intros p H; in_lines H);
      assert (Nb : forall p, ~ In (HighlyRelevant p) b)
        by (intros p H; in_lines H);
      assert (Nt : forall p, ~ In (HighlyRelevant p) t)
        by (intros p H; in_lines H);
      assert (Nbu : forall p, ~ In (HighlyRelevant p) bu)
        by (intros p H; in_lines H);
      assert (Nsk : forall p, ~ In (HighlyRelevant p) sk)
        by (intros p H; in_lines H);
      assert (Npr : forall p, ~ In (HighlyRelevant p) pr)
        by (intros p H; in_lines H);
      generalize dependent pr; generalize dependent sk;
      generalize dependent bu; generalize dependent t;
      generalize dependent b; generalize dependent a
  end.
  intros a La Na b Lb Nb t Lt Nt bu Lbu Nbu sk Lsk Nsk pr Lpr Npr.
  destruct (Qle_bool 0.6 relevanceScore) eqn:Er; cbn [when].
  - apply Qle_bool_iff in Er.
    destruct (List.length _ =? 0)%nat eqn:El.
    { apply Nat.eqb_eq in El. rewrite !length_app in El. simpl in El.
      exfalso. clear - El. lia. }
    intros [= <-].
    split; [repeat (rewrite length_app; cbn [List.length]); lia|].
    split.
    + split; [intros _|intros _; exact Er].
      apply in_or_app. right. apply in_or_app. right. now left.
    + intros percent H.
      apply (in_seven_parts _ a b [_] t bu sk pr) in H.
      destruct H as [H | [H | [H | [H | [H | [H | H]]]]]];
        try (exfalso;
             solve [ eapply Na; eassumption | eapply Nb; eassumption
                   | eapply Nt; eassumption | eapply Nbu; eassumption
                   | eapply Nsk; eassumption | eapply Npr; eassumption ]).
      destruct H as [H | []]. injection H as H. now symmetry.
  - apply Qle_bool_false in Er.
    assert (Hno : forall percent l,
              l = a ++ b ++ [] ++ t ++ bu ++ sk ++ pr ->
              ~ In (HighlyRelevant percent) l).
    { intros percent l -> H.
      apply in_seven_parts in H.
      destruct H as [H | [H | [H | [H | [H | [H | H]]]]]];
        try solve [ eapply Na; eassumption | eapply Nb; eassumption
                  | eapply Nt; eassumption | eapply Nbu; eassumption
                  | eapply Nsk; eassumption | eapply Npr; eassumption ].
      destruct H. }
    destruct (List.length _ =? 0)%nat eqn:El.
    + destruct (Qle_bool 0.5 relevanceScore); intros [= <-];
        (split; [simpl; lia|]);
        (split; [split; [intros; lra | intros [H | []]; discriminate H]
                | intros percent [H | []]; discriminate H]).
    + intros [= <-].
      split; [repeat (rewrite length_app; cbn [List.length]); lia|].
      split.
      * split; [intros; lra | intros H; exfalso; eapply Hno; eauto].
      * intros percent H. exfalso. eapply Hno; eauto.
Qed.

Lemma generateExplanations_bounded_relevance_line_witness :
  exists lines,
    generateExplanations mlGuide "student" beginnerConstraints
      ["machine"; "learning"] 0.645 (JS.Num 0.7) = Normal lines
    /\ (List.length lines <= 7)%nat
    /\ In (HighlyRelevant 65) lines.
Proof.
  destruct (generateExplanations mlGuide "student" beginnerConstraints
              ["machine"; "learning"] 0.645 (JS.Num 0.7))
    as [lines|e] eqn:E; [|vm_compute in E; discriminate E].
  destruct (generateExplanations_bounded_relevance_line mlGuide "student"
              beginnerConstraints ["machine"; "learning"] 0.645 (JS.Num 0.7)
              lines E) as (Hlen & Hrel & _).
  exists lines. split; [reflexivity|]. split; [exact Hlen|].
  apply Hrel. discriminate.
Defined.

(* ------------------------------------------------------------------ *)
(** ** The pipelines *)

Lemma generateExplanations_no_weights (result : SearchResult)
  (profile : string) (constraints : Constraints)
  (queryKeywords : list string) (relevanceScore : Q)
  (personalizationScore : JS.num) :
  weightsOf profile = None ->
  exists e,
    generateExplanations result profile constraints queryKeywords
      relevanceScore personalizationScore = Throw e.
Proof.
  intros H. unfold generateExplanations. rewrite H. eauto.
Qed.

Lemma rankResults_no_weights (request : Request) :
  weightsOf (requestProfile request) = None ->
  survivors request <> [] ->
  exists e, Engine.rankResults request = Throw e.
Proof.
  intros Hw Hs. rewrite rankResults_unfold.
  destruct (survivors request) as [|first rest]; [congruence|].
  cbn [mapM]. unfold Shared.scoreAndExplain at 1. cbv zeta.
  match goal with
  | |- context [generateExplanations ?r ?p ?c ?k ?rel ?pers] =>
      destruct (generateExplanations_no_weights r p c k rel pers Hw) as [e ->]
  end.
  simpl. eauto.
Qed.

(** X12.  [rankResults] throws exactly when at least one candidate passes
    the intent filter and the profile has no weight object; with an empty
    candidate list, or when the filter leaves nothing, it returns the
    empty list whatever the profile. *)
Theorem rankResults_throws_iff :
  forall request : Request,
    ((exists e, Engine.rankResults request = Throw e)
     <-> filterByQueryIntent (requestResults request) (req_query request)
         <> []
         /\ weightsOf (requestProfile request) = None)
    /\ (filterByQueryIntent (requestResults request) (req_query request)
        = [] ->
        Engine.rankResults request = Normal []).
Proof.
  intros request. fold (survivors request). split.
  - split.
    + intros [e He].
      destruct (weightsOf (requestProfile request)) as [w|] eqn:Hw.
      * destruct (rankResults_total request) as [ranked Hr]; congruence.
      * split; [|reflexivity].
        intros Hs. rewrite rankResults_unfold, Hs in He. discriminate He.
    + intros [Hs Hw]. now apply rankResults_no_weights.
  - intros Hs. rewrite rankResults_unfold, Hs. reflexivity.
Qed.

Lemma rankResults_throws_iff_witness :
  (exists e,
      Engine.rankResults
        (mkRequest "machine learning" (Some "guest") None (Some [mlGuide]))
      = Throw e)
  /\ Engine.rankResults
       (mkRequest "cooking recipes" (Some "guest") None (Some [mlGuide]))
     = Normal [].
Proof.
  split.
  - apply (rankResults_throws_iff
             (mkRequest "machine learning" (Some "guest") None
                (Some [mlGuide]))).
    split; [discriminate | reflexivity].
  - apply (rankResults_throws_iff
             (mkRequest "cooking recipes" (Some "guest") None
                (Some [mlGuide]))).
    reflexivity.
Defined.

Lemma scoreAndExplain_fields
  (adjust : SearchResult -> Constraints -> JS.num) (profile : string)
  (constraints : Constraints) (queryKeywords : list string)
  (result : SearchResult) (ranked : RankedResult) :
  Shared.scoreAndExplain adjust profile constraints queryKeywords result
  = Normal ranked ->
  item ranked = result
  /\ profileTag ranked = profile
  /\ score ranked
     = Shared.combine (computeRelevanceScore result queryKeywords)
         (Shared.computePersonalizationScore adjust result profile
            constraints)
  /\ generateExplanations result profile constraints queryKeywords
       (computeRelevanceScore result queryKeywords)
       (Shared.computePersonalizationScore adjust result profile
          constraints)
     = Normal (explanations ranked).
Proof.
  unfold Shared.scoreAndExplain. cbv zeta.
  destruct (generateExplanations _ _ _ _ _ _) as [lines|e]; simpl;
    [|discriminate].
  intros [= <-]. repeat split.
Qed.

(** X13.  Every result [rankResults] returns carries the profile of the
    request and the explanations [generateExplanations] gives for that
    candidate with the very relevance and personalization scores its
    final score is made of; the list of explanations is never empty. *)
Theorem rankResults_annotations :
  forall (request : Request) (ranked : list RankedResult),
    Engine.rankResults request = Normal ranked ->
    Forall
      (fun r =>
         profileTag r = requestProfile request
         /\ generateExplanations (item r) (requestProfile request)
              (requestConstraints request)
              (extractKeywords (req_query request))
              (computeRelevanceScore (item r)
                 (extractKeywords (req_query request)))
              (Engine.computePersonalizationScore (item r)
                 (requestProfile request) (requestConstraints request))
            = Normal (explanations r)
         /\ (1 <= List.length (explanations r))%nat)
      ranked.
Proof.
  intros request ranked H. rewrite rankResults_unfold in H.
  destruct (mapM _ (survivors request)) as [scored|e] eqn:E; simpl in H;
    [|discriminate].
  injection H as <-.
  apply (Permutation_Forall (Permutation_sym (sortBy_perm _ scored))).
  apply mapM_Normal in E.
  induction E as [|x y xs ys Hxy _ IH]; constructor; [|exact IH].
  apply scoreAndExplain_fields in Hxy.
  destruct Hxy as (Hi & Hp & _ & He). subst x.
  split; [exact Hp|]. split; [exact He|].
  destruct (weightsOf (requestProfile request)) as [w|] eqn:Hw.
  - match type of He with
    | generateExplanations ?r ?p ?c ?k ?rel ?pers = _ =>
        destruct (generateExplanations_with_weights r p c k rel pers w Hw)
          as (lines & Hl & Hlen & _)
    end.
    rewrite Hl in He. injection He as <-. exact Hlen.
  - match type of He with
    | generateExplanations ?r ?p ?c ?k ?rel ?pers = _ =>
        destruct (generateExplanations_no_weights r p c k rel pers Hw)
          as (e & Hl)
    end.
    rewrite Hl in He. discriminate He.
Qed.

Lemma rankResults_annotations_witness :
  exists ranked,
    Engine.rankResults twoRequest = Normal ranked
    /\ Forall (fun r => profileTag r = "student"
                        /\ (1 <= List.length (explanations r))%nat) ranked.
Proof.
  destruct (rankResults_total twoRequest) as [ranked E]; [discriminate|].
  exists ranked. split; [exact E|].
  pose proof (rankResults_annotations twoRequest ranked E) as H.
  eapply Forall_impl; [|exact H].
  intros r (Hp & _ & Hl). split; [exact Hp | exact Hl].
Defined.

Lemma mapM_ext {A B : Type} (f g : A -> completion B) (xs : list A) :
  (forall x, f x = g x) -> mapM f xs = mapM g xs.
Proof.
  intros H. induction xs as [|x xs IH]; simpl; [reflexivity|].
  now rewrite H, IH.
Qed.

Lemma inactive_adjustments (result : SearchResult)
  (constraints : Constraints) :
  inactive constraints ->
  App.applyConstraintAdjustments result constraints
  = Engine.applyConstraintAdjustments result constraints.
Proof.
  intros (Hb & Hr & Hs).
  unfold Engine.applyConstraintAdjustments, App.applyConstraintAdjustments.
  now rewrite Hb, Hr, Hs.
Qed.

(** X14.  When no constraint is active, the browser pipeline shows
    exactly the first three results of [rankResults] on the same
    candidates, profile and query (and fails where [rankResults]
    fails). *)
Theorem rankAndDisplayResults_first_three :
  forall (results : list SearchResult) (profile : string)
         (constraints : Constraints) (query : string),
    inactive constraints ->
    App.rankAndDisplayResults results profile constraints query
    = (ranked <-
         Engine.rankResults
           (contextRequest results profile constraints query) ;;
       Normal (firstn 3 ranked)).
Proof.
  intros results profile constraints query Hin.
  rewrite rankResults_unfold.
  unfold App.rankAndDisplayResults, survivors, contextRequest.
  cbn [requestResults requestProfile requestConstraints req_query
       req_results req_profile req_constraints]. cbv zeta.
  rewrite (mapM_ext
             (Shared.scoreAndExplain App.applyConstraintAdjustments profile
                constraints (extractKeywords query))
             (Shared.scoreAndExplain Engine.applyConstraintAdjustments profile
                constraints (extractKeywords query))).
  - destruct (filterByQueryIntent results query) as [|first rest];
      [reflexivity|].
    cbn [List.length Nat.eqb].
    destruct (mapM _ (first :: rest)); reflexivity.
  - intros result.
    unfold Shared.scoreAndExplain, Shared.computePersonalizationScore,
      Shared.personalizationFor.
    now rewrite (inactive_adjustments result constraints Hin).
Qed.

Lemma rankAndDisplayResults_first_three_witness :
  App.rankAndDisplayResults sixCandidates "student" falsyConstraints
    "machine learning"
  = (ranked <-
       Engine.rankResults
         (contextRequest sixCandidates "student" falsyConstraints
            "machine learning") ;;
     Normal (firstn 3 ranked)).
Proof.
  apply (rankAndDisplayResults_first_three sixCandidates "student"
           falsyConstraints "machine learning").
  repeat split.
Defined.

Lemma shared_personalization_range_or_NaN
  (adjust : SearchResult -> Constraints -> JS.num) (result : SearchResult)
  (profile : string) (constraints : Constraints) :
  match Shared.computePersonalizationScore adjust result profile
          constraints with
  | JS.Num x => 0 <= x /\ x <= 1
  | JS.NaN => adjust result constraints = JS.NaN
  end.
Proof.
  unfold Shared.computePersonalizationScore.
  destruct (weightsOf profile) as [weights|].
  - unfold Shared.personalizationFor.
    destruct (fold_left _ weights (0, 0)) as [profileScore total].
    cbv zeta.
    match goal with
    | |- match JS.max _ (JS.min _ ?a) with _ => _ end =>
        pose proof (clamp_range_or_NaN 0 1 a) as H;
        destruct (JS.max (JS.Num 0) (JS.min (JS.Num 1) a))
    end.
    + apply H. discriminate.
    + assert (H' := H ltac:(discriminate)).
      destruct (adjust result constraints); [discriminate H' | reflexivity].
  - split; discriminate.
Qed.

Lemma StronglySorted_app_inv {A : Type} (R : A -> A -> Prop)
  (l1 l2 : list A) :
  StronglySorted R (l1 ++ l2) ->
  StronglySorted R l1
  /\ forall a b, In a l1 -> In b l2 -> R a b.
Proof.
  induction l1 as [|x l1 IH]; simpl; intros H.
  - split; [constructor | intros a b []].
  - inversion H as [|? ? Hs Hx]; subst.
    destruct (IH Hs) as [Hs1 Hcross].
    rewrite Forall_app in Hx. destruct Hx as [Hx1 Hx2].
    split; [now constructor|].
    intros a b [<- | Ha] Hb.
    + rewrite Forall_forall in Hx2. now apply Hx2.
    + now apply Hcross.
Qed.

Lemma app_scored_numeric (profile : string) (constraints : Constraints)
  (queryKeywords : list string) (xs : list SearchResult)
  (ys : list RankedResult) :
  Forall2
    (fun x y =>
       Shared.scoreAndExplain App.applyConstraintAdjustments profile
         constraints queryKeywords x = Normal y) xs ys ->
  Forall hasAppAdjusterMetrics xs ->
  map item ys = xs /\ Forall numericScore ys.
Proof.
  induction 1 as [|x y xs ys Hxy _ IH]; intros Hm; [split; constructor|].
  inversion Hm as [|? ? Hx Hxs]; subst.
  destruct (IH Hxs) as [IH1 IH2].
  apply scoreAndExplain_fields in Hxy.
  destruct Hxy as (Hi & _ & Hs & _).
  split; [simpl; congruence|]. constructor; [|exact IH2].
  unfold numericScore. rewrite Hs.
  pose proof (appConstraintAdjustments_isNum x constraints Hx) as Hn.
  pose proof (shared_personalization_range_or_NaN
                App.applyConstraintAdjustments x profile constraints) as Hp.
  destruct (Shared.computePersonalizationScore _ x profile constraints).
  - exact I.
  - rewrite Hp in Hn. destruct Hn.
Qed.

(** X15.  For candidates that carry the metrics the browser adjuster
    reads, the results the browser pipeline shows are the best of the
    scored survivors of the intent filter: the scored survivors are the
    results shown together with the ones left out, there are [min 3 n]
    results shown, in descending order of score, and none of the scored
    survivors left out has a higher score than one that is shown. *)
Theorem rankAndDisplayResults_top_three :
  forall (results : list SearchResult) (profile : string)
         (constraints : Constraints) (query : string)
         (shown : list RankedResult),
    App.rankAndDisplayResults results profile constraints query
    = Normal shown ->
    Forall hasAppAdjusterMetrics results ->
    exists scored hidden,
      mapM (Shared.scoreAndExplain App.applyConstraintAdjustments
              profile constraints (extractKeywords query))
        (filterByQueryIntent results query) = Normal scored
      /\ Permutation (shown ++ hidden) scored
      /\ List.length shown
         = Nat.min 3 (List.length (filterByQueryIntent results query))
      /\ StronglySorted scoreGe shown
      /\ forall a b, In a shown -> In b hidden -> scoreGe a b.
Proof.
  intros results profile constraints query shown H Hm.
  assert (E : exists scored,
             mapM (Shared.scoreAndExplain App.applyConstraintAdjustments
                     profile constraints (extractKeywords query))
               (filterByQueryIntent results query) = Normal scored
             /\ shown = firstn 3 (sortBy scoreAfter scored)).
  { unfold App.rankAndDisplayResults in H. cbv zeta in H.
    destruct (filterByQueryIntent results query) as [|first rest].
    - injection H as <-. exists []. split; reflexivity.
    - cbn [List.length Nat.eqb] in H.
      destruct (mapM _ (first :: rest)) as [scored|e]; cbn [bind] in H;
        [|discriminate].
      injection H as <-. exists scored. split; reflexivity. }
  destruct E as (scored & Hscored & ->).
  pose proof Hscored as Hmap. apply mapM_Normal in Hmap.
  assert (Hsurv : Forall hasAppAdjusterMetrics
                    (filterByQueryIntent results query)).
  { rewrite filterByQueryIntent_as_filter. apply Forall_forall.
    intros x Hx. apply filter_In in Hx.
    rewrite Forall_forall in Hm. now apply Hm. }
  pose proof (app_scored_numeric _ _ _ _ _ Hmap Hsurv) as Hitems.
  destruct Hitems as [Hitems Hnum].
  pose proof (sortBy_sorted scored Hnum) as Hsorted.
  rewrite <- (firstn_skipn 3 (sortBy scoreAfter scored)) in Hsorted.
  apply StronglySorted_app_inv in Hsorted. destruct Hsorted as [Hs Hcross].
  exists scored, (skipn 3 (sortBy scoreAfter scored)).
  split; [exact Hscored|].
  split; [|split; [|split; assumption]].
  - rewrite firstn_skipn. apply sortBy_perm.
  - rewrite length_firstn, sortBy_length, <- Hitems, length_map.
    reflexivity.
Qed.

Lemma rankAndDisplayResults_top_three_witness :
  exists shown scored hidden,
    App.rankAndDisplayResults (rev sixCandidates) "student"
      beginnerConstraints "machine learning" = Normal shown
    /\ mapM (Shared.scoreAndExplain App.applyConstraintAdjustments
               "student" beginnerConstraints
               (extractKeywords "machine learning"))
         (filterByQueryIntent (rev sixCandidates) "machine learning")
       = Normal scored
    /\ Permutation (shown ++ hidden) scored
    /\ map (fun r => id (item r)) scored = [6; 5; 4; 3; 2; 1]%Z
    /\ map (fun r => id (item r)) shown = [1; 2; 3]%Z
    /\ forall a b, In a shown -> In b hidden -> scoreGe a b.
Proof.
  destruct (App.rankAndDisplayResults (rev sixCandidates) "student"
              beginnerConstraints "machine learning")
    as [shown|e] eqn:E; [|vm_compute in E; discriminate E].
  destruct (rankAndDisplayResults_top_three (rev sixCandidates) "student"
              beginnerConstraints "machine learning" shown E)
    as (scored & hidden & Hscored & Hperm & _ & _ & Hcross).
  - repeat constructor; discriminate.
  - exists shown, scored, hidden. split; [reflexivity|].
    split; [exact Hscored|]. split; [exact Hperm|].
    split; [|split; [|exact Hcross]].
    + vm_compute in Hscored. injection Hscored as <-. reflexivity.
    + vm_compute in E. injection E as <-. reflexivity.
Defined.

Lemma filter_perm {A : Type} (p : A -> bool) (l l' : list A) :
  Permutation l l' -> Permutation (filter p l) (filter p l').
Proof.
  induction 1 as [|x l l' _ IH|x y l|l l' l'' _ IH1 _ IH2]; simpl.
  - constructor.
  - destruct (p x); [now constructor | exact IH].
  - destruct (p x), (p y); try apply Permutation_refl. apply perm_swap.
  - now transitivity (filter p l').
Qed.

Lemma mapM_perm {A B : Type} (f : A -> completion B) (l l' : list A) :
  Permutation l l' ->
  forall ys, mapM f l = Normal ys ->
  exists ys', mapM f l' = Normal ys' /\ Permutation ys ys'.
Proof.
  induction 1 as [|x l l' _ IH|x y l|l l' l'' _ IH1 _ IH2]; intros ys;
    simpl.
  - intros [= <-]. exists []. split; [reflexivity | constructor].
  - destruct (f x) as [b|e]; simpl; [|discriminate].
    destruct (mapM f l) as [bs|e]; simpl; [|discriminate].
    intros [= <-]. destruct (IH bs eq_refl) as (bs' & -> & Hp).
    exists (b :: bs'). split; [reflexivity | now constructor].
  - destruct (f y) as [b|e]; simpl; [|discriminate].
    destruct (f x) as [a|e]; simpl; [|discriminate].
    destruct (mapM f l) as [bs|e]; simpl; [|discriminate].
    intros [= <-]. exists (a :: b :: bs). split; [reflexivity|].
    apply perm_swap.
  - intros H. destruct (IH1 ys H) as (ys' & H' & Hp).
    destruct (IH2 ys' H') as (ys'' & H'' & Hp').
    exists ys''. split; [exact H'' | now transitivity ys'].
Qed.

Lemma scoreGe_antisym (a b : RankedResult) :
  scoreGe a b -> scoreGe b a -> score a =js= score b.
Proof.
  unfold scoreGe. destruct (score a), (score b); simpl; try tauto.
  intros H1 H2. now apply Qle_antisym.
Qed.

(** Two descending arrangements of the same results agree when no two
    different results have the same score. *)
Lemma sorted_unique (l1 : list RankedResult) :
  forall l2,
    StronglySorted scoreGe l1 -> StronglySorted scoreGe l2 ->
    Permutation l1 l2 ->
    (forall a b, In a l1 -> In b l1 -> score a =js= score b -> a = b) ->
    l1 = l2.
Proof.
  induction l1 as [|x l1 IH]; intros l2 H1 H2 Hp Hties.
  - apply Permutation_nil in Hp. now subst.
  - destruct l2 as [|y l2].
    { apply Permutation_sym, Permutation_nil in Hp. discriminate Hp. }
    inversion H1 as [|? ? H1s H1x]; subst.
    inversion H2 as [|? ? H2s H2y]; subst.
    assert (Exy : x = y).
    { assert (Hx : In x (y :: l2))
        by (apply (Permutation_in _ Hp); now left).
      assert (Hy : In y (x :: l1))
        by (apply (Permutation_in _ (Permutation_sym Hp)); now left).
      destruct Hx as [-> | Hx]; [reflexivity|].
      destruct Hy as [-> | Hy]; [reflexivity|].
      rewrite Forall_forall in H1x, H2y.
      apply Hties; [now left | now right|].
      apply scoreGe_antisym; [now apply H1x | now apply H2y]. }
    subst y. apply Permutation_cons_inv in Hp. f_equal.
    apply IH; try assumption.
    intros a b Ha Hb. apply Hties; now right.
Qed.

(** X16.  When the final scores are numbers and no two different results
    tie, the ranking does not depend on the order in which the candidates
    are given: [rankResults] on any rearrangement of the candidate list
    returns the same list. *)
Theorem rankResults_order_independent :
  forall (request : Request) (rearranged : list SearchResult)
         (ranked : list RankedResult),
    Permutation (requestResults request) rearranged ->
    Engine.rankResults request = Normal ranked ->
    Forall numericScore ranked ->
    (forall a b, In a ranked -> In b ranked ->
                 score a =js= score b -> a = b) ->
    Engine.rankResults (withResults request rearranged) = Normal ranked.
Proof.
  intros request rearranged ranked Hperm H Hnum Hties.
  rewrite rankResults_unfold in *. unfold survivors in *.
  change (requestResults (withResults request rearranged)) with rearranged.
  change (req_query (withResults request rearranged))
    with (req_query request).
  change (requestProfile (withResults request rearranged))
    with (requestProfile request).
  change (requestConstraints (withResults request rearranged))
    with (requestConstraints request).
  rewrite !filterByQueryIntent_as_filter in *.
  match type of H with
  | context [mapM ?f (filter ?p _)] =>
      destruct (mapM f (filter p (requestResults request)))
        as [scored|e] eqn:E; simpl in H; [|discriminate];
      destruct (mapM_perm f _ _ (filter_perm p _ _ Hperm) scored E)
        as (scored' & -> & Hp)
  end.
  injection H as <-. simpl. f_equal.
  pose proof (sortBy_perm scoreAfter scored) as P1.
  pose proof (sortBy_perm scoreAfter scored') as P2.
  symmetry. apply sorted_unique.
  - apply sortBy_sorted, (Permutation_Forall P1), Hnum.
  - apply sortBy_sorted.
    apply (Permutation_Forall Hp), (Permutation_Forall P1), Hnum.
  - rewrite P1, P2. exact Hp.
  - exact Hties.
Qed.

Lemma rankResults_order_independent_witness :
  Engine.rankResults
    (withResults threeRequest
       [ uniform 3 "course" [] 0.7; uniform 2 "course" [] 0.4;
         uniform 1 "course" [] 0.9 ])
  = Engine.rankResults threeRequest.
Proof.
  destruct (Engine.rankResults threeRequest) as [ranked|e] eqn:E;
    [|vm_compute in E; discriminate E].
  apply (rankResults_order_independent threeRequest _ ranked).
  - simpl. apply perm_trans with
      [uniform 3 "course" [] 0.7; uniform 1 "course" [] 0.9;
       uniform 2 "course" [] 0.4].
    + apply Permutation_sym, Permutation_cons_append with
        (l := [uniform 1 "course" [] 0.9; uniform 2 "course" [] 0.4]).
    + constructor. apply perm_swap.
  - exact E.
  - vm_compute in E. injection E as <-. repeat constructor.
  - vm_compute in E. injection E as <-.
    intros a b Ha Hb Hs.
    simpl in Ha, Hb.
    destruct Ha as [<- | [<- | [<- | []]]];
      destruct Hb as [<- | [<- | [<- | []]]];
      try reflexivity; vm_compute in Hs; discriminate Hs.
Defined.

(* ------------------------------------------------------------------ *)
(** ** Results converted from the search provider *)

(** X17.  [inferCategory] always answers one of six categories, never an
    empty one; an item without URL is an article, and a URL that mentions
    a course is a course whatever else it mentions. *)
Theorem inferCategory_range :
  forall item : Server.BingItem,
    In (Server.inferCategory item) inferredCategories
    /\ Server.inferCategory item <> ""
    /\ (Str.truthy (Server.bingUrl item) = None ->
        Server.inferCategory item = "article")
    /\ (forall u, Server.bingUrl item = Some u ->
        Str.includes (Str.toLowerCase u) "course" = true ->
        Server.inferCategory item = "course").
Proof.
  intros item. unfold Server.inferCategory.
  split; [|split; [|split]].
  - cbv zeta. split_branches; simpl; tauto.
  - cbv zeta. split_branches; discriminate.
  - unfold Str.truthy, Str.orElse.
    destruct (Server.bingUrl item) as [u|]; [|reflexivity].
    destruct (String.eqb u ""); [reflexivity | discriminate].
  - intros u -> Hc. unfold Str.orElse. cbv zeta.
    destruct (String.eqb u "") eqn:E.
    + apply String.eqb_eq in E. subst u. discriminate Hc.
    + now rewrite Hc.
Qed.

Lemma inferCategory_range_witness :
  Server.inferCategory (Server.mkBing (Some "Paper") None None) = "article"
  /\ Server.inferCategory
       (Server.mkBing (Some "ML")
          (Some "https://github.com/x/ML-Course-Book") None)
     = "course".
Proof.
  split.
  - apply (inferCategory_range (Server.mkBing (Some "Paper") None None)).
    reflexivity.
  - apply (inferCategory_range
             (Server.mkBing (Some "ML")
                (Some "https://github.com/x/ML-Course-Book") None))
      with (u := "https://github.com/x/ML-Course-Book"); reflexivity.
Defined.

(** The tags selected from a table whose names are pairwise different
    are pairwise different. *)
Lemma selected_tags_NoDup :
  forall (keep : string * list string -> bool)
         (table : list (string * list string)),
    NoDup (map fst table) ->
    NoDup (map fst (filter keep table)).
Proof.
  intros keep table. induction table as [|row rest IH]; intros Hd.
  - constructor.
  - apply NoDup_cons_iff in Hd. destruct Hd as [Hfresh Hrest].
    cbn [filter]. destruct (keep row); [|exact (IH Hrest)].
    cbn [map]. apply NoDup_cons; [|exact (IH Hrest)].
    intros Hin. apply Hfresh.
    apply in_map_iff in Hin. destruct Hin as (other & Hname & Hin).
    apply filter_In in Hin. apply in_map_iff. exists other. tauto.
Qed.

(** X18.  [inferTags] never returns an empty list and never repeats a
    tag; every tag is one of the eight names of its table, in table
    order, or the list is exactly ["general"]. *)
Theorem inferTags_shape :
  forall item : Server.BingItem,
    Server.inferTags item <> []
    /\ NoDup (Server.inferTags item)
    /\ (Server.inferTags item = ["general"]
        \/ (incl (Server.inferTags item) (map fst Server.tagKeywords)
            /\ exists keep,
                 Server.inferTags item
                 = map fst (filter keep Server.tagKeywords))).
Proof.
  intros item. unfold Server.inferTags. cbv zeta.
  match goal with
  | |- context [map fst (filter ?p Server.tagKeywords)] =>
      set (tags := map fst (filter p Server.tagKeywords));
      assert (Hn : NoDup tags)
        by (apply selected_tags_NoDup; repeat constructor; simpl;
            intuition discriminate);
      assert (Hi : incl tags (map fst Server.tagKeywords))
        by (intros t Ht; apply in_map_iff in Ht;
            destruct Ht as (e & <- & He); apply filter_In in He;
            apply in_map; tauto);
      assert (Hk : exists keep, tags = map fst (filter keep Server.tagKeywords))
        by (now exists p)
  end.
  destruct tags as [|t ts]; cbn [List.length Nat.ltb Nat.leb].
  - split; [discriminate|]. split; [repeat constructor; simpl; tauto|].
    now left.
  - split; [discriminate|]. split; [exact Hn|]. right. split; assumption.
Qed.

Lemma includes_prefix (s sub : string) :
  String.prefix sub s = true -> Str.includes s sub = true.
Proof.
  intros H. destruct s; simpl in *; rewrite H; reflexivity.
Qed.

Lemma includes_drop_first (s : string) (c : ascii) (sub : string) :
  Str.includes s (String c sub) = true -> Str.includes s sub = true.
Proof.
  induction s as [|d s IH]; simpl.
  - discriminate.
  - destruct (Ascii.ascii_dec c d) as [->|Hn].
    + intros H. apply orb_true_iff in H. apply orb_true_iff. right.
      destruct H as [H | H]; [|now apply IH].
      destruct (Ascii.ascii_dec d d); [|congruence].
      now apply includes_prefix.
    + intros H. apply orb_true_iff in H. apply orb_true_iff. right.
      destruct H as [H | H]; [|now apply IH].
      destruct (Ascii.ascii_dec c d); congruence.
Qed.

(** X19.  An item whose title or snippet contains "html" (in any case) is
    tagged both "web development" and "machine learning": the keyword
    "ml" of the latter matches inside "html". *)
Theorem inferTags_html_is_machine_learning :
  forall item : Server.BingItem,
    Str.includes (Server.contentOf item) "html" = true ->
    In "machine learning" (Server.inferTags item)
    /\ In "web development" (Server.inferTags item).
Proof.
  intros item H.
  assert (Hml : Str.includes (Server.contentOf item) "ml" = true)
    by (do 2 apply includes_drop_first in H; exact H).
  unfold Server.inferTags. cbv zeta.
  match goal with
  | |- context [map fst (filter ?p Server.tagKeywords)] =>
      assert (H1 : In "machine learning"
                     (map fst (filter p Server.tagKeywords)));
      [| assert (H2 : In "web development"
                        (map fst (filter p Server.tagKeywords)));
         [| destruct (map fst (filter p Server.tagKeywords));
            [destruct H1 | split; assumption] ] ]
  end.
  - apply in_map_iff.
    exists ("machine learning",
            ["machine learning"; "ml"; "ai"; "artificial intelligence"]).
    split; [reflexivity|]. apply filter_In. split; [simpl; tauto|].
    cbn [snd existsb]. rewrite Hml. now rewrite orb_true_r.
  - apply in_map_iff.
    exists ("web development", ["web"; "html"; "css"; "react"; "vue"]).
    split; [reflexivity|]. apply filter_In. split; [simpl; tauto|].
    cbn [snd existsb]. rewrite H. now rewrite orb_true_r.
Qed.

Lemma inferTags_html_is_machine_learning_witness :
  In "machine learning" (Server.inferTags htmlPage)
  /\ In "web development" (Server.inferTags htmlPage).
Proof.
  apply (inferTags_html_is_machine_learning htmlPage). reflexivity.
Defined.



Lemma transform_metrics (items : list Server.BingItem) :
  forall (index : nat) (draws : list Server.Draws),
    Forall (fun r => hasAdjusterMetrics r /\ hasAppAdjusterMetrics r)
      (Server.transform index items draws).
Proof.
  induction items as [|item items IH]; intros index [|d draws]; simpl;
    try constructor.
  - repeat split; discriminate.
  - apply IH.
Qed.

Lemma transform_length (items : list Server.BingItem) :
  forall (index : nat) (draws : list Server.Draws),
    List.length draws = List.length items ->
    List.length (Server.transform index items draws) = List.length items.
Proof.
  induction items as [|item items IH]; intros index [|d draws]; simpl;
    try reflexivity; try discriminate.
  intros [= H]. now rewrite IH.
Qed.

Lemma valid_profile_weights (profile : string) :
  existsb (String.eqb profile) Server.validProfiles = true ->
  weightsOf profile <> None.
Proof.
  intros H. apply existsb_exists in H. destruct H as (p & Hin & E).
  apply String.eqb_eq in E. subst p. now apply weightsOf_known.
Qed.

(** X21.  Ranking the candidates converted from the provider never meets
    a missing metric: for a known profile, whatever the items, the draws,
    the query and the constraints, [rankResults] returns, every final
    score is a number in [0, 1], and the list is in descending order of
    score. *)
Theorem rankResults_on_converted :
  forall (items : list Server.BingItem) (draws : list Server.Draws)
         (query profile : string) (constraints : Constraints),
    In profile Server.validProfiles ->
    exists ranked,
      Engine.rankResults
        (mkRequest query (Some profile) (Some constraints)
           (Some (Server.transform 0 items draws)))
      = Normal ranked
      /\ Forall (fun r => JS.within 0 1 (score r)) ranked
      /\ StronglySorted scoreGe ranked.
Proof.
  intros items draws query profile constraints Hp.
  set (request := mkRequest query (Some profile) (Some constraints)
                    (Some (Server.transform 0 items draws))).
  destruct (rankResults_total request) as [ranked E].
  { apply weightsOf_known. exact Hp. }
  exists ranked. split; [exact E|].
  apply rankResults_Normal in E.
  destruct E as (scored & -> & Hitems & Hscores).
  assert (Hm : Forall hasAdjusterMetrics (map item scored)).
  { rewrite Hitems. unfold survivors.
    rewrite filterByQueryIntent_as_filter. apply Forall_forall.
    intros x Hx. apply filter_In in Hx. destruct Hx as [Hx _].
    pose proof (transform_metrics items 0 draws) as H.
    rewrite Forall_forall in H. now apply H. }
  rewrite Forall_map in Hm.
  assert (Hw : Forall (fun r => JS.within 0 1 (score r)) scored).
  { rewrite Forall_forall in *. intros r Hr.
    rewrite (Hscores r Hr).
    apply (scores_in_unit_interval (item r) _ _ _ (Hm r Hr)). }
  split.
  - apply (Permutation_Forall (Permutation_sym (sortBy_perm _ scored))), Hw.
  - apply sortBy_sorted. eapply Forall_impl; [|exact Hw].
    intros r. unfold numericScore. destruct (score r); simpl; tauto.
Qed.

Lemma rankResults_on_converted_witness :
  exists ranked,
    Engine.rankResults
      (mkRequest "html tutorial" (Some "student") (Some beginnerConstraints)
         (Some (Server.transform 0 [htmlPage] [someDraws])))
    = Normal ranked
    /\ Forall (fun r => JS.within 0 1 (score r)) ranked.
Proof.
  destruct (rankResults_on_converted [htmlPage] [someDraws] "html tutorial"
              "student" beginnerConstraints) as (ranked & E & Hw & _).
  - simpl. tauto.
  - exists ranked. split; [exact E | exact Hw].
Defined.

(* ------------------------------------------------------------------ *)
(** ** The request handlers *)

Lemma trimStart_empty (s : string) :
  Str.trimStart s = "" <-> allChars Str.isSpace s = true.
Proof.
  induction s as [|c s IH]; simpl; [tauto|].
  destruct (Str.isSpace c); simpl; [exact IH|].
  split; discriminate.
Qed.

Lemma trimStart_head (s : string) (c : ascii) (rest : string) :
  Str.trimStart s = String c rest -> Str.isSpace c = false.
Proof.
  induction s as [|d s IH]; simpl; [discriminate|].
  destruct (Str.isSpace d) eqn:E; [exact IH|].
  intros [= <- _]. exact E.
Qed.

Lemma trimEnd_nonempty (c : ascii) (rest : string) :
  Str.isSpace c = false -> Str.trimEnd (String c rest) <> "".
Proof.
  intros H. simpl. destruct (Str.trimEnd rest); [rewrite H|]; discriminate.
Qed.

Lemma trim_empty (s : string) :
  Str.trim s = "" <-> allChars Str.isSpace s = true.
Proof.
  rewrite <- trimStart_empty. unfold Str.trim.
  destruct (Str.trimStart s) as [|c rest] eqn:E.
  - simpl. tauto.
  - split; [|discriminate].
    intros H. exfalso.
    now apply (trimEnd_nonempty c rest (trimStart_head s c rest E)).
Qed.

Lemma respond_valid (query profile : string) (constraints : Constraints)
  (bing : completion (list SearchResult)) (mockResults : list SearchResult) :
  In profile Server.validProfiles ->
  exists ranked,
    Engine.rankResults
      (mkRequest query (Some profile) (Some constraints)
         (Some (fst (Server.chooseResults bing mockResults))))
    = Normal ranked
    /\ Server.respond query profile constraints bing mockResults
       = Server.Success query profile (List.length ranked) ranked
           (snd (Server.chooseResults bing mockResults)).
Proof.
  intros Hp. unfold Server.respond.
  destruct (Server.chooseResults bing mockResults) as [found source].
  cbn [fst snd].
  destruct (rankResults_total
              (mkRequest query (Some profile) (Some constraints) (Some found)))
    as [ranked E].
  { apply weightsOf_known. exact Hp. }
  exists ranked. rewrite E. split; reflexivity.
Qed.

Lemma valid_profile_In (profile : string) :
  existsb (String.eqb profile) Server.validProfiles = true ->
  In profile Server.validProfiles.
Proof.
  intros H. apply existsb_exists in H. destruct H as (p & Hin & E).
  apply String.eqb_eq in E. now subst p.
Qed.

(** X22.  The GET handler never answers 500.  It answers 400 "query
    required" exactly when [q] is missing or blank, and 400 "invalid
    profile" only for a profile outside the four names.  A 200 answer
    echoes the query, names a valid profile, counts its results, and
    holds the ranking of the provider's results when there are any and of
    the mock results otherwise; the source is reported as "bing" whenever
    the provider call succeeded, also when it found nothing and the mock
    results were ranked. *)
Theorem handleGet_outcomes :
  forall (parseInt : string -> option Z) (parseFloat : string -> option Q)
         (params : Server.SearchParams)
         (bing : completion (list SearchResult))
         (mockResults : list SearchResult),
    let response :=
      Server.handleGet parseInt parseFloat params bing mockResults in
    response <> Server.InternalError
    /\ (response = Server.BadRequest Server.MissingQuery
        <-> blankQuery (Server.paramQ params))
    /\ (forall valid,
          response = Server.BadRequest (Server.InvalidProfile valid) ->
          ~ In (Str.orElse (Server.paramProfile params) "casual")
              Server.validProfiles)
    /\ (forall query profile total ranked source,
          response = Server.Success query profile total ranked source ->
          Server.paramQ params = Some query
          /\ In profile Server.validProfiles
          /\ total = List.length ranked
          /\ (source = "bing" <-> exists found, bing = Normal found)
          /\ exists candidates,
               Engine.rankResults
                 (mkRequest query (Some profile)
                    (Some (Server.parseConstraints parseInt parseFloat params))
                    (Some candidates))
               = Normal ranked
               /\ match bing with
                  | Normal (first :: rest) => candidates = first :: rest
                  | _ => candidates = mockResults
                  end).
Proof.
  intros parseInt parseFloat params bing mockResults response.
  subst response. unfold Server.handleGet, blankQuery, Str.truthy.
  destruct (Server.paramQ params) as [q|].
  2:{ repeat split; try discriminate; tauto. }
  destruct (String.eqb_spec q "") as [-> | Hq].
  { repeat split; try discriminate; tauto. }
  rewrite <- trim_empty.
  destruct (String.eqb_spec (Str.trim q) "") as [Ht | Ht].
  { repeat split; try discriminate; tauto. }
  cbv zeta.
  destruct (existsb (String.eqb (Str.orElse (Server.paramProfile params)
                                   "casual")) Server.validProfiles) eqn:Ev;
    cbn [negb].
  2:{ split; [discriminate|]. split; [split; [discriminate | tauto]|].
      split; [|discriminate].
      intros valid _ Hin.
      assert (existsb (String.eqb (Str.orElse (Server.paramProfile params)
                                     "casual")) Server.validProfiles = true).
      { apply existsb_exists. eexists. split; [exact Hin|].
        apply String.eqb_refl. }
      congruence. }
  apply valid_profile_In in Ev.
  destruct (respond_valid q _ (Server.parseConstraints parseInt parseFloat
                                 params) bing mockResults Ev)
    as (ranked & Hr & ->).
  split; [discriminate|]. split; [split; [discriminate | tauto]|].
  split; [discriminate|].
  intros query profile total ranked' source [= <- <- <- <- <-].
  split; [reflexivity|]. split; [exact Ev|]. split; [reflexivity|].
  split.
  - unfold Server.chooseResults. destruct bing as [found|e]; cbn [snd].
    + split; eauto.
    + split; [discriminate | intros [found H]; discriminate H].
  - eexists. split; [exact Hr|].
    unfold Server.chooseResults.
    destruct bing as [[|first rest]|e]; reflexivity.
Qed.

Lemma handleGet_outcomes_witness :
  Server.handleGet sampleParseInt sampleParseFloat
    (Server.mkParams (Some "   ") (Some "student") None None None None None)
    (Normal []) [mlGuide]
  = Server.BadRequest Server.MissingQuery.
Proof.
  apply (handleGet_outcomes sampleParseInt sampleParseFloat
           (Server.mkParams (Some "   ") (Some "student") None None None
              None None) (Normal []) [mlGuide]).
  reflexivity.
Defined.

(** X23.  The POST handler never answers 500 either, and every 200
    answer it gives names one of the four valid profiles and counts its
    results. *)
Theorem handlePost_outcomes :
  forall (body : Server.SearchBody)
         (bing : completion (list SearchResult))
         (mockResults : list SearchResult),
    Server.handlePost body bing mockResults <> Server.InternalError
    /\ forall query profile total ranked source,
         Server.handlePost body bing mockResults
         = Server.Success query profile total ranked source ->
         Server.bodyQuery body = Some query
         /\ In profile Server.validProfiles
         /\ total = List.length ranked.
Proof.
  intros body bing mockResults.
  unfold Server.handlePost, Str.truthy.
  destruct (Server.bodyQuery body) as [q|]; [|split; discriminate].
  destruct (String.eqb q ""); [split; discriminate|].
  destruct (String.eqb (Str.trim q) ""); [split; discriminate|].
  cbv zeta.
  match goal with
  | |- context [existsb (String.eqb ?p) Server.validProfiles] =>
      destruct (existsb (String.eqb p) Server.validProfiles) eqn:Ev;
      cbn [negb]; [apply valid_profile_In in Ev | split; discriminate]
  end.
  match goal with
  | |- context [Server.respond ?q ?p ?c ?b ?m] =>
      destruct (respond_valid q p c b m Ev) as (ranked & _ & ->)
  end.
  split; [discriminate|].
  intros query profile total ranked' source [= <- <- <- <- <-].
  repeat split. exact Ev.
Qed.

Lemma handlePost_outcomes_witness :
  exists query profile total ranked source,
    Server.handlePost
      (Server.mkBody (Some "machine learning") None None)
      (Throw (TypeError "fetch failed")) [mlGuide]
    = Server.Success query profile total ranked source
    /\ In profile Server.validProfiles
    /\ total = List.length ranked.
Proof.
  destruct (Server.handlePost
              (Server.mkBody (Some "machine learning") None None)
              (Throw (TypeError "fetch failed")) [mlGuide])
    as [error|query profile total ranked source|] eqn:E;
    try (vm_compute in E; discriminate E).
  exists query, profile, total, ranked, source.
  split; [reflexivity|].
  destruct (handlePost_outcomes
              (Server.mkBody (Some "machine learning") None None)
              (Throw (TypeError "fetch failed")) [mlGuide]) as [_ H].
  destruct (H query profile total ranked source E) as (_ & Hp & Ht).
  split; assumption.
Defined.

Lemma rankResults_without_skill (query profile : string)
  (constraints : Constraints) (results : list SearchResult)
  (level : string) :
  skillLevel constraints = Some level ->
  ~ In level knownSkillLevels ->
  Engine.rankResults
    (mkRequest query (Some profile) (Some constraints) (Some results))
  = Engine.rankResults
      (mkRequest query (Some profile) (Some (withoutSkill constraints))
         (Some results)).
Proof.
  intros Hl Hn. rewrite !rankResults_unfold. unfold survivors.
  cbn [requestResults requestProfile requestConstraints req_query
       req_results req_profile req_constraints].
  rewrite (mapM_ext
             (Shared.scoreAndExplain Engine.applyConstraintAdjustments
                profile constraints (extractKeywords query))
             (Shared.scoreAndExplain Engine.applyConstraintAdjustments
                profile (withoutSkill constraints) (extractKeywords query)));
    [reflexivity|].
  intros result.
  destruct (unknown_skill_same result constraints level Hl Hn)
    as (He & _ & Hg).
  unfold Shared.scoreAndExplain, Shared.computePersonalizationScore,
    Shared.personalizationFor.
  now rewrite He, Hg.
Qed.

(** X24.  The GET handler does not validate [skillLevel]: a value other
    than beginner, intermediate and advanced is accepted, and the answer
    is the one the same request gets without the parameter. *)
Theorem handleGet_unknown_skill_level :
  forall (parseInt : string -> option Z) (parseFloat : string -> option Q)
         (params : Server.SearchParams) (level : string)
         (bing : completion (list SearchResult))
         (mockResults : list SearchResult),
    Server.paramSkillLevel params = Some level ->
    ~ In level knownSkillLevels ->
    Server.handleGet parseInt parseFloat params bing mockResults
    = Server.handleGet parseInt parseFloat (withoutSkillParam params) bing
        mockResults.
Proof.
  intros parseInt parseFloat params level bing mockResults Hl Hn.
  unfold Server.handleGet, withoutSkillParam.
  cbn [Server.paramQ Server.paramProfile].
  destruct (Str.truthy (Server.paramQ params)) as [q|]; [|reflexivity].
  destruct (String.eqb (Str.trim q) ""); [reflexivity|].
  cbv zeta.
  destruct (negb _); [reflexivity|].
  unfold Server.respond.
  destruct (Server.chooseResults bing mockResults) as [found source].
  change (Server.parseConstraints parseInt parseFloat
            (Server.mkParams (Server.paramQ params)
               (Server.paramProfile params) (Server.paramBudget params)
               (Server.paramBudgetAmount params)
               (Server.paramCurrency params)
               (Server.paramReadingTime params) None))
    with (withoutSkill (Server.parseConstraints parseInt parseFloat params)).
  destruct (String.eqb_spec level "") as [-> | Hne].
  - unfold Server.parseConstraints, withoutSkill. rewrite Hl. reflexivity.
  - rewrite (rankResults_without_skill q _
               (Server.parseConstraints parseInt parseFloat params) found
               level); try assumption; [reflexivity|].
    unfold Server.parseConstraints. cbn [skillLevel]. rewrite Hl.
    unfold Str.truthy.
    destruct (String.eqb_spec level ""); [contradiction | reflexivity].
Qed.

Lemma handleGet_unknown_skill_level_witness :
  Server.handleGet sampleParseInt sampleParseFloat expertParams
    (Normal []) [mlGuide]
  = Server.handleGet sampleParseInt sampleParseFloat
      (withoutSkillParam expertParams) (Normal []) [mlGuide].
Proof.
  apply (handleGet_unknown_skill_level sampleParseInt sampleParseFloat
           expertParams "expert" (Normal []) [mlGuide]).
  - reflexivity.
  - simpl. intros [H | [H | [H | []]]]; discriminate H.
Defined.

(* ------------------------------------------------------------------ *)
(** ** The corpus cache *)

(** X25.  [getMockResults] always leaves the cache filled with the list
    it returns, so that a later call returns the same list without regard
    to the file; on an empty cache it returns the parsed results, or the
    default list when the file cannot be read or has no results. *)
Theorem getMockResults_cache :
  forall (file later : completion (option (list SearchResult)))
         (mockResults : option (list SearchResult)),
    let '(found, cache) := Corpus.getMockResults file mockResults in
    cache = Some found
    /\ Corpus.getMockResults later cache = (found, cache)
    /\ match mockResults, file with
       | Some cached, _ => found = cached
       | None, Normal (Some parsed) => found = parsed
       | None, _ => found = Corpus.getDefaultResults
       end.
Proof.
  intros file later [cached|]; simpl.
  - repeat split.
  - destruct file as [[parsed|]|e]; repeat split.
Qed.

(* ------------------------------------------------------------------ *)
(** ** Result cards *)

(** X26.  The decision label of a result is never empty; its category is
    the profile, which is then one of the four known ones, or
    "universal"; and [getLabelColors] finds that category among its own
    entries, the grey pair serving the universal labels only. *)
Theorem getDecisionLabel_category :
  forall (result : RankedResult) (profile : string),
    let decision := View.getDecisionLabel result profile in
    View.label decision <> ""
    /\ (View.labelCategory decision = "universal"
        \/ (View.labelCategory decision = profile
            /\ In profile Server.validProfiles))
    /\ exists colors,
         View.getLabelColors (View.labelCategory decision) = Own colors
         /\ (colors = View.universalColors
             <-> View.labelCategory decision = "universal").
Proof.
  intros result profile. cbv zeta. unfold View.getDecisionLabel.
  cbv zeta.
  destruct (String.eqb_spec profile "student") as [-> | Hs];
    [|destruct (String.eqb_spec profile "shopper") as [-> | Hh];
      [|destruct (String.eqb_spec profile "researcher") as [-> | Hr];
        [|destruct (String.eqb_spec profile "casual") as [-> | Hc]]]];
    cbn [String.eqb Ascii.eqb Bool.eqb];
    split_branches; cbn [View.orNext View.label View.labelCategory];
    (split; [discriminate|]);
    (split;
     [first [ left; reflexivity
            | right; split; [reflexivity | simpl; tauto] ]|]);
    eexists; (split; [reflexivity|]); split; intros H;
    first [reflexivity | discriminate H].
Qed.

Lemma floor_ge_iff (n : Z) (x : Q) :
  (n <= Qfloor x)%Z <-> inject_Z n <= x.
Proof.
  split; intros H.
  - eapply Qle_trans; [|apply Qfloor_le]. now rewrite <- Zle_Qle.
  - rewrite <- (Qfloor_Z n). now apply Qfloor_resp_le.
Qed.

Lemma percent_ge_iff (q : Q) (n : Z) :
  JS.ge (JS.percentOf (Some q)) (JS.Num (inject_Z n)) = true
  <-> inject_Z n - (1 # 2) <= q * 100.
Proof.
  unfold JS.percentOf, JS.ge, JS.round.
  rewrite Qle_bool_iff, <- Zle_Qle, floor_ge_iff. split; intros H; lra.
Qed.

(** X27.  The trust badge of a card follows the reviews score through the
    rounded percentage: excellent from 0.845, good from 0.695, fair from
    0.495 and low below; a result without reviews gets the low badge and
    a trust score that is not a number. *)
Theorem createResultCard_trust_badge :
  forall (result : RankedResult) (position : nat),
    let card := View.createResultCard result position in
    match reviews (item result) with
    | None =>
        View.trustScore card = JS.NaN
        /\ View.badgeClass (View.trustBadge card) = "badge-low"
    | Some q =>
        (0.845 <= q ->
         View.badgeClass (View.trustBadge card) = "badge-excellent")
        /\ (0.695 <= q -> q < 0.845 ->
            View.badgeClass (View.trustBadge card) = "badge-good")
        /\ (0.495 <= q -> q < 0.695 ->
            View.badgeClass (View.trustBadge card) = "badge-fair")
        /\ (q < 0.495 ->
            View.badgeClass (View.trustBadge card) = "badge-low")
    end.
Proof.
  intros result position. cbv zeta. unfold View.createResultCard.
  cbv zeta. cbn [View.trustScore View.trustBadge].
  destruct (reviews (item result)) as [q|]; [|split; reflexivity].
  unfold View.getTrustBadge.
  pose proof (percent_ge_iff q 85) as H85.
  pose proof (percent_ge_iff q 70) as H70.
  pose proof (percent_ge_iff q 50) as H50.
  change (inject_Z 85) with 85 in H85.
  change (inject_Z 70) with 70 in H70.
  change (inject_Z 50) with 50 in H50.
  destruct (JS.ge (JS.percentOf (Some q)) (JS.Num 85)) eqn:E85;
    [|destruct (JS.ge (JS.percentOf (Some q)) (JS.Num 70)) eqn:E70;
      [|destruct (JS.ge (JS.percentOf (Some q)) (JS.Num 50)) eqn:E50]];
    cbn [View.badgeClass];
    repeat split; intros; try reflexivity; exfalso.
  all: repeat match goal with
         | H : true = true <-> _ |- _ =>
             pose proof (proj1 H eq_refl); clear H
         | H : false = true <-> _ |- _ =>
             assert (~ (false = true)) by discriminate;
             pose proof (fun X => proj2 H X); clear H
         end.
  all: try lra.
  all: repeat match goal with
         | H : _ -> false = true |- _ =>
             let T := type of H in
             match T with
             | ?P -> _ => assert P by lra; specialize (H ltac:(assumption));
                          discriminate H
             end
         end.
Qed.

Lemma createResultCard_trust_badge_witness :
  View.badgeClass (View.trustBadge (View.createResultCard rankedGuide 1))
  = "badge-excellent".
Proof.
  pose proof (createResultCard_trust_badge rankedGuide 1) as H.
  cbv zeta in H. cbn [reviews item rankedGuide mlGuide] in H.
  apply H. discriminate.
Defined.

Lemma cardsFrom_spec (limited : list RankedResult) :
  forall index,
    map View.cardResult (View.cardsFrom index limited) = limited
    /\ map View.cardPosition (View.cardsFrom index limited)
       = seq (index + 1) (List.length limited).
Proof.
  induction limited as [|r rest IH]; intros index; simpl.
  - split; reflexivity.
  - destruct (IH (S index)) as [IH1 IH2].
    rewrite IH1, IH2. replace (S index + 1)%nat with (S (index + 1)) by lia.
    split; reflexivity.
Qed.

(** X28.  [displayResults] makes one card for each of the first five
    results, in order and numbered from 1, and adds the line "Showing 5
    of n results" exactly when it was given more than five.  The list the
    browser pipeline hands over has at most three results, so it is shown
    whole and never with that line. *)
Theorem displayResults_cards :
  (forall rankedResults : list RankedResult,
      let shown := View.displayResults rankedResults in
      map View.cardResult (View.cards shown) = firstn 5 rankedResults
      /\ map View.cardPosition (View.cards shown)
         = seq 1 (Nat.min 5 (List.length rankedResults))
      /\ (View.countInfo shown = Some (List.length rankedResults)
          <-> (5 < List.length rankedResults)%nat)
      /\ (View.countInfo shown = None
          <-> (List.length rankedResults <= 5)%nat))
  /\ (forall results profile constraints query top,
        App.rankAndDisplayResults results profile constraints query
        = Normal top ->
        map View.cardResult (View.cards (View.displayResults top)) = top
        /\ View.countInfo (View.displayResults top) = None).
Proof.
  assert (Hgeneral : forall rankedResults : list RankedResult,
      let shown := View.displayResults rankedResults in
      map View.cardResult (View.cards shown) = firstn 5 rankedResults
      /\ map View.cardPosition (View.cards shown)
         = seq 1 (Nat.min 5 (List.length rankedResults))
      /\ (View.countInfo shown = Some (List.length rankedResults)
          <-> (5 < List.length rankedResults)%nat)
      /\ (View.countInfo shown = None
          <-> (List.length rankedResults <= 5)%nat)).
  { intros rankedResults. cbv zeta. unfold View.displayResults.
    cbn [View.cards View.countInfo].
    destruct (cardsFrom_spec (firstn 5 rankedResults) 0) as [H1 H2].
    rewrite H1, H2, length_firstn.
    split; [reflexivity|]. split; [reflexivity|].
    destruct (Nat.ltb_spec 5 (List.length rankedResults)).
    - split; split; intros; try reflexivity; try assumption;
        try discriminate; lia.
    - split; split; intros; try reflexivity; try assumption;
        try discriminate; lia. }
  split; [exact Hgeneral|].
  intros results profile constraints query top H.
  apply rankAndDisplayResults_at_most_three in H.
  destruct (Hgeneral top) as (H1 & _ & _ & H4).
  split.
  - rewrite H1. apply firstn_all2. lia.
  - apply H4. lia.
Qed.

Lemma displayResults_cards_witness :
  exists top,
    App.rankAndDisplayResults sixCandidates "student" noConstraints
      "machine learning" = Normal top
    /\ map View.cardResult (View.cards (View.displayResults top)) = top
    /\ View.countInfo (View.displayResults top) = None.
Proof.
  destruct (App.rankAndDisplayResults sixCandidates "student" noConstraints
              "machine learning") as [top|e] eqn:E;
    [|vm_compute in E; discriminate E].
  exists top. split; [reflexivity|].
  destruct displayResults_cards as [_ H].
  exact (H sixCandidates "student" noConstraints "machine learning" top E).
Defined.

(** X29.  Relevance dominates: when two candidates carry the metrics the
    adjuster reads and the relevance score of the first exceeds that of
    the second by more than 3/7, the final score of the first is the
    higher one, whatever the profile and the constraints. *)
Theorem relevance_dominates :
  forall (first second : SearchResult) (queryKeywords : list string)
         (profile : string) (constraints : Constraints),
    hasAdjusterMetrics first ->
    hasAdjusterMetrics second ->
    (3 # 7) < computeRelevanceScore first queryKeywords
              - computeRelevanceScore second queryKeywords ->
    exists high low : Q,
      Shared.combine (computeRelevanceScore first queryKeywords)
        (Engine.computePersonalizationScore first profile constraints)
      = JS.Num high
      /\ Shared.combine (computeRelevanceScore second queryKeywords)
           (Engine.computePersonalizationScore second profile constraints)
         = JS.Num low
      /\ low < high.
Proof.
  intros first second queryKeywords profile constraints H1 H2 Hgap.
  pose proof (computePersonalizationScore_range first profile constraints H1)
    as P1.
  pose proof (computePersonalizationScore_range second profile constraints H2)
    as P2.
  unfold Shared.combine.
  destruct (Engine.computePersonalizationScore first profile constraints)
    as [p1|]; [|destruct P1].
  destruct (Engine.computePersonalizationScore second profile constraints)
    as [p2|]; [|destruct P2].
  js_simpl. simpl in P1, P2.
  eexists _, _. split; [reflexivity|]. split; [reflexivity|]. lra.
Qed.

Lemma relevance_dominates_witness :
  exists high low : Q,
    Shared.combine
      (computeRelevanceScore (uniform 1 "course" [] 0.9) [])
      (Engine.computePersonalizationScore (uniform 1 "course" [] 0.9)
         "student" beginnerConstraints)
    = JS.Num high
    /\ Shared.combine
         (computeRelevanceScore (uniform 2 "course" [] 0.4) [])
         (Engine.computePersonalizationScore (uniform 2 "course" [] 0.4)
            "student" beginnerConstraints)
       = JS.Num low
    /\ low < high.
Proof.
  apply (relevance_dominates (uniform 1 "course" [] 0.9)
           (uniform 2 "course" [] 0.4) [] "student" beginnerConstraints).
  - repeat split; discriminate.
  - repeat split; discriminate.
  - vm_compute. reflexivity.
Defined.

(* ------------------------------------------------------------------ *)
(** ** Reading time in the personalization score *)

Lemma engine_adjustment_inactive (result : SearchResult)
  (constraints : Constraints) :
  inactive constraints ->
  Engine.applyConstraintAdjustments result constraints = JS.Num 0.
Proof.
  intros (Hb & Hr & Hs). unfold Engine.applyConstraintAdjustments.
  now rewrite Hb, Hr, Hs.
Qed.

Lemma student_sums (simplicityV priceV reviewsV citationsV depthV recencyV
                      readingV : Q) :
  fold_left
    (Shared.accumulate
       [ ("simplicity", simplicityV); ("price", priceV);
         ("reviews", reviewsV); ("citations", citationsV);
         ("depth", depthV); ("recency", recencyV);
         ("readingTime", readingV) ])
    student (0, 0)
  = (0 + simplicityV * 0.30 + recencyV * 0.15 + reviewsV * 0.15
     + depthV * 0.10 + priceV * 0.05 + readingV * -0.05,
     0 + Qabs 0.30 + Qabs 0.15 + Qabs 0.15 + Qabs 0.10 + Qabs 0.05
     + Qabs (-0.05)).
Proof. reflexivity. Qed.

Lemma casual_sums (simplicityV priceV reviewsV citationsV depthV recencyV
                     readingV : Q) :
  fold_left
    (Shared.accumulate
       [ ("simplicity", simplicityV); ("price", priceV);
         ("reviews", reviewsV); ("citations", citationsV);
         ("depth", depthV); ("recency", recencyV);
         ("readingTime", readingV) ])
    casual (0, 0)
  = (0 + recencyV * 0.25 + readingV * -0.15 + simplicityV * 0.20
     + reviewsV * 0.10 + priceV * 0.05,
     0 + Qabs 0.25 + Qabs (-0.15) + Qabs 0.20 + Qabs 0.10 + Qabs 0.05).
Proof. reflexivity. Qed.

(** X30.  The weight of reading time is negative for the student and the
    casual profile while the metric it multiplies is high for short
    reads.  So, with no active constraint and under these two profiles,
    of two candidates that differ in their reading time only, the one
    whose counted reading time is the longer never has the lower
    personalization score.  The counted reading time is
    [result.readingTime || 15]: a missing reading time and one of 0
    count as 15 minutes. *)
Theorem longer_read_not_lower :
  forall (result : SearchResult) (profile : string)
         (constraints : Constraints) (shorter longer : option Q),
    profile = "student" \/ profile = "casual" ->
    inactive constraints ->
    JS.orElse shorter 15 <= JS.orElse longer 15 ->
    exists low high : Q,
      Engine.computePersonalizationScore (withMinutes result shorter)
        profile constraints = JS.Num low
      /\ Engine.computePersonalizationScore (withMinutes result longer)
           profile constraints = JS.Num high
      /\ low <= high.
Proof.
  intros result profile constraints shorter longer Hp Hin Hl.
  pose proof (getReadingTimeScore_antitone _ _ Hl) as Hr.
  unfold Engine.computePersonalizationScore,
    Shared.computePersonalizationScore, Shared.personalizationFor,
    Shared.metricsOf.
  rewrite !(engine_adjustment_inactive _ constraints Hin).
  cbn [simplicity price reviews citations depth recency readingTime
       withMinutes].
  destruct Hp as [-> | ->].
  - change (weightsOf "student") with (Some student). cbv iota.
    rewrite !student_sums. cbv beta iota zeta.
    match goal with
    | |- context [negb (Qle_bool ?t 0)] =>
        replace (negb (Qle_bool t 0)) with true by reflexivity
    end.
    js_simpl. eexists _, _. split; [reflexivity|]. split; [reflexivity|].
    apply Q.max_le_compat_l, Q.min_le_compat_l.
    apply Qplus_le_compat; [|lra].
    unfold Qdiv. apply Qmult_le_compat_r; [lra | vm_compute; discriminate].
  - change (weightsOf "casual") with (Some casual). cbv iota.
    rewrite !casual_sums. cbv beta iota zeta.
    match goal with
    | |- context [negb (Qle_bool ?t 0)] =>
        replace (negb (Qle_bool t 0)) with true by reflexivity
    end.
    js_simpl. eexists _, _. split; [reflexivity|]. split; [reflexivity|].
    apply Q.max_le_compat_l, Q.min_le_compat_l.
    apply Qplus_le_compat; [|lra].
    unfold Qdiv. apply Qmult_le_compat_r; [lra | vm_compute; discriminate].
Qed.

Lemma longer_read_not_lower_witness :
  (exists low high : Q,
      Engine.computePersonalizationScore (withMinutes mlGuide (Some 5))
        "casual" noConstraints = JS.Num low
      /\ Engine.computePersonalizationScore (withMinutes mlGuide (Some 60))
           "casual" noConstraints = JS.Num high
      /\ low <= high)
  /\ (exists low high : Q,
        Engine.computePersonalizationScore (withMinutes mlGuide (Some 10))
          "casual" noConstraints = JS.Num low
        /\ Engine.computePersonalizationScore (withMinutes mlGuide (Some 0))
             "casual" noConstraints = JS.Num high
        /\ low <= high)
  /\ (exists low high : Q,
        Engine.computePersonalizationScore (withMinutes mlGuide (Some 15))
          "student" noConstraints = JS.Num low
        /\ Engine.computePersonalizationScore (withMinutes mlGuide None)
             "student" noConstraints = JS.Num high
        /\ low <= high).
Proof.
  split; [|split].
  - apply (longer_read_not_lower mlGuide "casual" noConstraints
             (Some 5) (Some 60)).
    + right. reflexivity.
    + repeat split.
    + discriminate.
  - apply (longer_read_not_lower mlGuide "casual" noConstraints
             (Some 10) (Some 0)).
    + right. reflexivity.
    + repeat split.
    + discriminate.
  - apply (longer_read_not_lower mlGuide "student" noConstraints
             (Some 15) None).
    + left. reflexivity.
    + repeat split.
    + discriminate.
Defined.
